(** * weather-forecast: a shallow embedding of [main.go]

    The program is a small HTTP server: [/weather] resolves a city name to a
    coordinate (geocoding service), fetches the hourly temperatures for that
    coordinate (weather service), formats them and renders a template.

    Layout of this development:
    - [Bytes]: Go strings as byte sequences, decimal and hexadecimal output;
    - [Strconv]: [float64] values, [strconv.ParseFloat], [strconv.ParseInt]
      and the [%.Nf] verb of [fmt];
    - [Json]: the scanner of [encoding/json] and the JSON values it reads;
    - [GoTime]: [time.Unix] and [Time.Format] for the layout ["Mon 15:04"];
    - [Url], [GoPath]: [url.QueryEscape] and the path cleaning of [ServeMux];
    - errors, panics, the types of [main.go] and the [World] a run depends
      on: the two services, the files, the local time zone, the release of
      [net/http];
    - [Decode]: [encoding/json] into the types of [main.go];
    - [ServeMux] and [main.go] itself: [getLatLong], [getWeather],
      [extractWeatherData], [home], [handler] and the routes of [main];
    - [Sample]: worlds and requests on which the program is run;
    - the lemmas and theorems about the program.

    Go strings are byte sequences: they are modelled by [string], one [ascii]
    per byte. *)

From Stdlib Require Import ZArith List String Ascii Bool Lia.
From Stdlib Require Import Floats.SpecFloat.
From Stdlib Require Import Numbers.DecimalString.
Import ListNotations.

Local Open Scope string_scope.
Local Open Scope Z_scope.

(* ------------------------------------------------------------------ *)
(** * Bytes and strings *)

Module Bytes.

(** The value of a byte, as Go's [int(c)]. *)
Definition code (c : ascii) : Z := Z.of_N (N_of_ascii c).

(** The byte of a value in [0, 256). *)
Definition byte (n : Z) : ascii := ascii_of_N (Z.to_N n).

Definition bytes (l : list Z) : string :=
  fold_right (fun n s => String (byte n) s) EmptyString l.

Definition is_digit (c : ascii) : bool := (48 <=? code c) && (code c <=? 57).
Definition is_upper (c : ascii) : bool := (65 <=? code c) && (code c <=? 90).
Definition is_lower (c : ascii) : bool := (97 <=? code c) && (code c <=? 122).

Definition digit_val (c : ascii) : Z := code c - 48.

(** The value of a hexadecimal digit, when it is one. *)
Definition hex_val (c : ascii) : option Z :=
  if is_digit c then Some (code c - 48)
  else if (97 <=? code c) && (code c <=? 102) then Some (code c - 87)
  else if (65 <=? code c) && (code c <=? 70) then Some (code c - 55)
  else None.

(** Decimal digits of a natural number, most significant first; ["0"] for
    zero. *)
Definition dec (n : Z) : string := NilZero.string_of_uint (N.to_uint (Z.to_N n)).

Fixpoint repeat_byte (c : ascii) (n : nat) : string :=
  match n with
  | O => EmptyString
  | S k => String c (repeat_byte c k)
  end.

(** [n] in decimal, padded with zeros on the left to at least [width]
    digits. *)
Definition dec_pad (width : nat) (n : Z) : string :=
  let d := dec n in
  repeat_byte "0"%char (width - String.length d) ++ d.

(** The text [s] with a double quote (byte 34) for each apostrophe (byte
    39): the JSON texts of this development are written with apostrophes. *)
Fixpoint with_quotes (s : string) : string :=
  match s with
  | EmptyString => EmptyString
  | String c rest => String (if code c =? 39 then byte 34 else c) (with_quotes rest)
  end.

(** [strings.HasPrefix(s, prefix)]. *)
Fixpoint HasPrefix (s prefix : string) {struct prefix} : bool :=
  match prefix with
  | EmptyString => true
  | String p prefix' =>
      match s with
      | String c s' => (c =? p)%char && HasPrefix s' prefix'
      | EmptyString => false
      end
  end.

Definition upperhex : string := "0123456789ABCDEF".

Definition hex_digit (n : Z) : ascii :=
  match String.get (Z.to_nat n) upperhex with
  | Some c => c
  | None => "0"%char
  end.

End Bytes.

(* ------------------------------------------------------------------ *)
(** * strconv and the floating-point verbs of fmt *)

Module Strconv.
Import Bytes.

(** A [float64] is an IEEE 754 binary64 value: the Standard Library's
    [spec_float] at precision 53 and maximal exponent 1024. *)
Definition float64 : Type := spec_float.

Definition prec64 : Z := 53.
Definition emax64 : Z := 1024.

Definition float64_zero : float64 := S754_zero false.

(** ** Reading a decimal literal

    A literal is read as [sign], a natural number [digits] and a power of
    ten: the value is [digits * 10 ^ exp10]. *)
Record decimal := { dec_neg : bool; dec_digits : Z; dec_exp10 : Z }.

(** Reads a run of decimal digits: its value on top of [acc], how many
    digits were read, and the rest. *)
Fixpoint read_digits (s : string) (acc : Z) (n : Z) : Z * Z * string :=
  match s with
  | String c rest =>
      if is_digit c then read_digits rest (10 * acc + digit_val c) (n + 1)
      else (acc, n, s)
  | EmptyString => (acc, n, s)
  end.

Definition read_sign (s : string) : bool * string :=
  match s with
  | String "-" rest => (true, rest)
  | String "+" rest => (false, rest)
  | _ => (false, s)
  end.

(** The literals of the JSON number grammar,
    [-? digits (. digits)? ((e|E) (+|-)? digits)?], which is what the
    decoder hands to [strconv]. [None] for any other text. *)
Definition read_decimal (s : string) : option decimal :=
  let (neg, s1) :=
    match s with String "-" rest => (true, rest) | _ => (false, s) end in
  let '(ip, ni, s2) := read_digits s1 0 0 in
  if ni =? 0 then None else
  let '(m, nf, s3) :=
    match s2 with
    | String "." rest => read_digits rest ip 0
    | _ => (ip, 0, s2)
    end in
  match s2, nf with
  | String "." _, 0 => None
  | _, _ =>
      match s3 with
      | EmptyString => Some {| dec_neg := neg; dec_digits := m; dec_exp10 := - nf |}
      | String c rest =>
          if (c =? "e")%char || (c =? "E")%char then
            let (eneg, s4) := read_sign rest in
            let '(e, ne, s5) := read_digits s4 0 0 in
            if ne =? 0 then None else
            match s5 with
            | EmptyString =>
                Some {| dec_neg := neg; dec_digits := m;
                        dec_exp10 := (if eneg then - e else e) - nf |}
            | _ => None
            end
          else None
      end
  end.

(** The binary64 value nearest to [digits * 10 ^ exp10], ties to even:
    the correctly rounded quotient of two integers. *)
Definition float64_of_decimal (d : decimal) : float64 :=
  match dec_digits d with
  | Zpos m =>
      let num := Z.to_pos (Zpos m * 10 ^ Z.max (dec_exp10 d) 0) in
      let den := Z.to_pos (10 ^ Z.max (- dec_exp10 d) 0) in
      SFdiv prec64 emax64 (S754_finite (dec_neg d) num 0) (S754_finite false den 0)
  | _ => S754_zero (dec_neg d)
  end.

(** [strconv.ParseFloat(s, 64)] on a JSON number literal: [None] stands for
    the range error of a literal that rounds to an infinity. *)
Definition ParseFloat (s : string) : option float64 :=
  match read_decimal s with
  | None => None
  | Some d =>
      match float64_of_decimal d with
      | S754_infinity _ => None
      | S754_nan => None
      | f => Some f
      end
  end.

Definition min_int64 : Z := - 2 ^ 63.
Definition max_int64 : Z := 2 ^ 63 - 1.

(** [strconv.ParseInt(s, 10, 64)] on a JSON number literal: digits only
    after the optional sign, and a value that fits an [int64]. *)
Definition ParseInt (s : string) : option Z :=
  let (neg, s1) := read_sign s in
  let '(v, n, rest) := read_digits s1 0 0 in
  if n =? 0 then None else
  match rest with
  | EmptyString =>
      let x := if neg then - v else v in
      if (min_int64 <=? x) && (x <=? max_int64) then Some x else None
  | _ => None
  end.

(** ** Writing with [%.Nf]

    [round_half_even num den] is the integer nearest to [num / den], the
    even one of the two when [num / den] is half-way. *)
Definition round_half_even (num den : Z) : Z :=
  let q := num / den in
  let r := num mod den in
  match 2 * r ?= den with
  | Lt => q
  | Gt => q + 1
  | Eq => if Z.even q then q else q + 1
  end.

(** The magnitude of a finite value [m * 2 ^ e], scaled by [10 ^ prec] and
    rounded to an integer. *)
Definition scaled_magnitude (prec : nat) (m : positive) (e : Z) : Z :=
  let p10 := 10 ^ Z.of_nat prec in
  if 0 <=? e then Zpos m * 2 ^ e * p10
  else round_half_even (Zpos m * p10) (2 ^ (- e)).

(** The digits of [r / 10 ^ prec] with [prec] digits after the point (no
    point when [prec] is zero). *)
Definition fixed_digits (prec : nat) (r : Z) : string :=
  let p10 := 10 ^ Z.of_nat prec in
  dec (r / p10) ++
  match prec with
  | O => ""
  | _ => "." ++ dec_pad prec (r mod p10)
  end.

Definition sign_text (s : bool) : string := if s then "-" else "".

(** [fmt.Sprintf("%.<prec>f", f)]. *)
Definition format_f (prec : nat) (f : float64) : string :=
  match f with
  | S754_nan => "NaN"
  | S754_infinity false => "+Inf"
  | S754_infinity true => "-Inf"
  | S754_zero s => sign_text s ++ fixed_digits prec 0
  | S754_finite s m e => sign_text s ++ fixed_digits prec (scaled_magnitude prec m e)
  end.

End Strconv.

(* ------------------------------------------------------------------ *)
(** * encoding/json: values and the scanner *)

Module Json.
Import Bytes.

(** A JSON value as the scanner delimits it. A number keeps its literal:
    the decoder converts it according to the Go type it is stored in. *)
#[warnings="-register-all"]
Inductive value : Type :=
| Null
| Bool (b : bool)
| Number (literal : string)
| Str (s : string)
| Array (elements : list value)
| Object (members : list (string * value)).

(** What scanning a prefix of the input gives: a result and the rest of the
    input, [Short] when the input ends inside the value, [Bad] at a byte
    that cannot continue it. *)
Inductive scan (A : Type) : Type :=
| Got (a : A) (rest : string)
| Short
| Bad.
Arguments Got {A} a rest.
Arguments Short {A}.
Arguments Bad {A}.

Definition is_space (c : ascii) : bool :=
  (code c =? 32) || (code c =? 9) || (code c =? 13) || (code c =? 10).

Fixpoint skip_space (s : string) : string :=
  match s with
  | String c rest => if is_space c then skip_space rest else s
  | EmptyString => s
  end.

(** The nesting the scanner accepts. *)
Definition maxNestingDepth : Z := 10000.

(** ** Strings

    The bytes of a string literal that are not valid UTF-8 are kept as they
    are, where the library writes the replacement character: no field that
    this program reads holds such a string, and no ASCII field name is
    matched by a key with one. *)

(** [utf8.EncodeRune] for a rune that is not a surrogate. *)
Definition encode_rune (r : Z) : string :=
  if r <? 128 then bytes [r]
  else if r <? 2048 then bytes [192 + r / 64; 128 + r mod 64]
  else if r <? 65536 then
    bytes [224 + r / 4096; 128 + (r / 64) mod 64; 128 + r mod 64]
  else
    bytes [240 + r / 262144; 128 + (r / 4096) mod 64;
           128 + (r / 64) mod 64; 128 + r mod 64].

Definition replacement_char : Z := 65533.

(** ** The scanner

    The scanner of [encoding/json] reads one byte at a time. Its state is
    what it expects next, and the arrays and objects that are open around the
    value it is reading, innermost first. *)

(** An open array with the elements read so far, last one first; an open
    object with its members read so far, last one first; an open object
    whose next value is for [key]. *)
Inductive frame : Type :=
| InArray (elements : list value)
| InObject (members : list (string * value))
| InMember (members : list (string * value)) (key : string).

(** Where the scanner is in a number literal. *)
Inductive number_state : Type :=
| AfterMinus
| AfterZero
| InInteger
| AfterDot
| InFraction
| AfterE
| AfterESign
| InExponent.

(** A string being read: the bytes unquoted so far, and the high surrogate
    of an escape that waits for its low half. *)
Record partial_string := { unquoted : string; high : option Z }.

Inductive state : Type :=
| BeginValue
| BeginValueOrEmpty
| BeginKeyOrEmpty
| BeginKey
| AfterKey
| EndValue
| InString (p : partial_string)
| InStringEsc (p : partial_string)
| InStringEscU (p : partial_string) (digits : nat) (rune : Z)
| InNumber (n : number_state) (literal : string)
| InLiteral (remaining : string) (v : value).

(** What a byte does to the scanner: it goes on, it ends the top-level
    value (which [consumed] the byte or not), or it is in error. *)
Inductive step_result : Type :=
| Next (st : state) (stack : list frame)
| Finished (v : value) (consumed : bool)
| Invalid.

(** The pending high surrogate, if any, was not followed by its low half:
    it reads as the replacement character. *)
Definition flush (p : partial_string) : string :=
  match high p with
  | Some _ => unquoted p ++ encode_rune replacement_char
  | None => unquoted p
  end.

Definition add_bytes (p : partial_string) (b : string) : partial_string :=
  {| unquoted := flush p ++ b; high := None |}.

Definition is_high_surrogate (r : Z) : bool := (55296 <=? r) && (r <? 56320).
Definition is_low_surrogate (r : Z) : bool := (56320 <=? r) && (r <? 57344).

(** The escape [\uXXXX] of value [r] was read. *)
Definition add_escaped_rune (p : partial_string) (r : Z) : partial_string :=
  match high p with
  | Some h =>
      if is_low_surrogate r then
        {| unquoted := unquoted p ++ encode_rune ((h - 55296) * 1024 + (r - 56320) + 65536);
           high := None |}
      else if is_high_surrogate r then {| unquoted := flush p; high := Some r |}
      else add_bytes p (encode_rune r)
  | None =>
      if is_high_surrogate r then {| unquoted := unquoted p; high := Some r |}
      else if is_low_surrogate r then add_bytes p (encode_rune replacement_char)
      else add_bytes p (encode_rune r)
  end.

(** A value is complete: it ends the text at the top level, and goes into
    the innermost open array or object otherwise. *)
Definition complete (v : value) (stack : list frame) (consumed : bool) : step_result :=
  match stack with
  | [] => Finished v consumed
  | InArray els :: outer => Next EndValue (InArray (v :: els) :: outer)
  | InMember ms key :: outer => Next EndValue (InObject ((key, v) :: ms) :: outer)
  | InObject _ :: _ => Invalid
  end.

(** A string is complete: a key in an open object, a value elsewhere. *)
Definition complete_string (text : string) (stack : list frame) : step_result :=
  match stack with
  | InObject ms :: outer => Next AfterKey (InMember ms text :: outer)
  | _ => complete (Str text) stack true
  end.

Definition push (f : frame) (st : state) (stack : list frame) : step_result :=
  if Z.of_nat (List.length stack) + 1 <=? maxNestingDepth
  then Next st (f :: stack)
  else Invalid.

Definition begin_string : state := InString {| unquoted := ""; high := None |}.

(** The first byte of a value. *)
Definition begin_value (c : ascii) (stack : list frame) : step_result :=
  if (c =? "{")%char then push (InObject []) BeginKeyOrEmpty stack
  else if (c =? "[")%char then push (InArray []) BeginValueOrEmpty stack
  else if code c =? 34 then Next begin_string stack
  else if (c =? "-")%char then Next (InNumber AfterMinus "-") stack
  else if (c =? "0")%char then Next (InNumber AfterZero "0") stack
  else if is_digit c then Next (InNumber InInteger (String c "")) stack
  else if (c =? "t")%char then Next (InLiteral "rue" (Bool true)) stack
  else if (c =? "f")%char then Next (InLiteral "alse" (Bool false)) stack
  else if (c =? "n")%char then Next (InLiteral "ull" Null) stack
  else Invalid.

(** The byte after a value inside an array or an object. *)
Definition end_value (c : ascii) (stack : list frame) : step_result :=
  if is_space c then Next EndValue stack
  else
    match stack with
    | InArray els :: outer =>
        if (c =? ",")%char then Next BeginValue stack
        else if (c =? "]")%char then complete (Array (rev els)) outer true
        else Invalid
    | InObject ms :: outer =>
        if (c =? ",")%char then Next BeginKey stack
        else if (c =? "}")%char then complete (Object (rev ms)) outer true
        else Invalid
    | _ => Invalid
    end.

(** A number ends at the byte [c], which is read again as the byte after a
    value; at the top level it is left to the caller. *)
Definition end_number (literal : string) (c : ascii) (stack : list frame)
  : step_result :=
  match complete (Number literal) stack false with
  | Next _ stack' => end_value c stack'
  | r => r
  end.

Definition is_e (c : ascii) : bool := (c =? "e")%char || (c =? "E")%char.

Definition number_step (n : number_state) (literal : string) (c : ascii)
  (stack : list frame) : step_result :=
  let go (n' : number_state) := Next (InNumber n' (literal ++ String c "")) stack in
  match n with
  | AfterMinus =>
      if (c =? "0")%char then go AfterZero
      else if is_digit c then go InInteger
      else Invalid
  | AfterZero =>
      if (c =? ".")%char then go AfterDot
      else if is_e c then go AfterE
      else end_number literal c stack
  | InInteger =>
      if is_digit c then go InInteger
      else if (c =? ".")%char then go AfterDot
      else if is_e c then go AfterE
      else end_number literal c stack
  | AfterDot => if is_digit c then go InFraction else Invalid
  | InFraction =>
      if is_digit c then go InFraction
      else if is_e c then go AfterE
      else end_number literal c stack
  | AfterE =>
      if (c =? "+")%char || (c =? "-")%char then go AfterESign
      else if is_digit c then go InExponent
      else Invalid
  | AfterESign => if is_digit c then go InExponent else Invalid
  | InExponent =>
      if is_digit c then go InExponent else end_number literal c stack
  end.

(** Whether a number may end where the scanner is. *)
Definition number_complete (n : number_state) : bool :=
  match n with
  | AfterZero | InInteger | InFraction | InExponent => true
  | _ => false
  end.

(** The byte after a backslash in a string. *)
Definition escape_step (p : partial_string) (c : ascii) (stack : list frame)
  : step_result :=
  let simple (b : Z) := Next (InString (add_bytes p (bytes [b]))) stack in
  if code c =? 34 then simple 34
  else if (c =? "\")%char then simple 92
  else if (c =? "/")%char then simple 47
  else if (c =? "b")%char then simple 8
  else if (c =? "f")%char then simple 12
  else if (c =? "n")%char then simple 10
  else if (c =? "r")%char then simple 13
  else if (c =? "t")%char then simple 9
  else if (c =? "u")%char then Next (InStringEscU p 0 0) stack
  else Invalid.

(** One byte. *)
Definition step (st : state) (stack : list frame) (c : ascii) : step_result :=
  match st with
  | BeginValue =>
      if is_space c then Next BeginValue stack else begin_value c stack
  | BeginValueOrEmpty =>
      if is_space c then Next BeginValueOrEmpty stack
      else if (c =? "]")%char then
        match stack with
        | InArray _ :: outer => complete (Array []) outer true
        | _ => Invalid
        end
      else begin_value c stack
  | BeginKeyOrEmpty =>
      if is_space c then Next BeginKeyOrEmpty stack
      else if (c =? "}")%char then
        match stack with
        | InObject _ :: outer => complete (Object []) outer true
        | _ => Invalid
        end
      else if code c =? 34 then Next begin_string stack
      else Invalid
  | BeginKey =>
      if is_space c then Next BeginKey stack
      else if code c =? 34 then Next begin_string stack
      else Invalid
  | AfterKey =>
      if is_space c then Next AfterKey stack
      else if (c =? ":")%char then Next BeginValue stack
      else Invalid
  | EndValue => end_value c stack
  | InString p =>
      if code c =? 34 then complete_string (flush p) stack
      else if (c =? "\")%char then Next (InStringEsc p) stack
      else if code c <? 32 then Invalid
      else Next (InString (add_bytes p (String c ""))) stack
  | InStringEsc p => escape_step p c stack
  | InStringEscU p digits rune =>
      match hex_val c with
      | None => Invalid
      | Some d =>
          let rune' := rune * 16 + d in
          match digits with
          | 3%nat => Next (InString (add_escaped_rune p rune')) stack
          | _ => Next (InStringEscU p (S digits) rune') stack
          end
      end
  | InNumber n literal => number_step n literal c stack
  | InLiteral remaining v =>
      match remaining with
      | String w EmptyString =>
          if (c =? w)%char then complete v stack true else Invalid
      | String w remaining' =>
          if (c =? w)%char then Next (InLiteral remaining' v) stack else Invalid
      | EmptyString => Invalid
      end
  end.

(** The scanner over the text [s]. At the end of the text, a number at the
    top level is complete if it may end there; anything else is cut short. *)
Fixpoint run (st : state) (stack : list frame) (s : string) : scan value :=
  match s with
  | EmptyString =>
      match st, stack with
      | InNumber n literal, [] =>
          if number_complete n then Got (Number literal) "" else Short
      | _, _ => Short
      end
  | String c rest =>
      match step st stack c with
      | Next st' stack' => run st' stack' rest
      | Finished v true => Got v rest
      | Finished v false => Got v s
      | Invalid => Bad
      end
  end.

(** The first value of [s], and the text after it. *)
Definition first_value (s : string) : scan value := run BeginValue [] s.

(** ** Case folding of keys

    A key selects a struct field when it equals the field's name up to
    Unicode simple case folding. The names of this program are ASCII: the
    runes that fold to an ASCII letter are the letters themselves, U+017F
    (long s, bytes C5 BF) and U+212A (Kelvin sign, bytes E2 84 AA). *)
Fixpoint fold_name (s : string) : string :=
  match s with
  | EmptyString => EmptyString
  | String c rest =>
      if is_upper c then String (byte (code c + 32)) (fold_name rest)
      else
        match rest with
        | String c2 rest2 =>
            if (code c =? 197) && (code c2 =? 191) then String "s" (fold_name rest2)
            else
              match rest2 with
              | String c3 rest3 =>
                  if (code c =? 226) && (code c2 =? 132) && (code c3 =? 170)
                  then String "k" (fold_name rest3)
                  else String c (fold_name rest)
              | EmptyString => String c (fold_name rest)
              end
        | EmptyString => String c (fold_name rest)
        end
  end.

Definition key_is (name key : string) : bool :=
  (fold_name key =? fold_name name)%string.

Definition is_blank (s : string) : bool :=
  match skip_space s with EmptyString => true | _ => false end.

End Json.

(* ------------------------------------------------------------------ *)
(** * time: Unix and Format *)

Module GoTime.
Import Bytes.

Definition wrap_int64 (x : Z) : Z := (x + 2 ^ 63) mod 2 ^ 64 - 2 ^ 63.
Definition wrap_uint64 (x : Z) : Z := x mod 2 ^ 64.

Definition secondsPerMinute : Z := 60.
Definition secondsPerHour : Z := 60 * secondsPerMinute.
Definition secondsPerDay : Z := 24 * secondsPerHour.
Definition secondsPerWeek : Z := 7 * secondsPerDay.

Definition absoluteZeroYear : Z := -292277022399.
Definition internalYear : Z := 1.

(** [(absoluteZeroYear - internalYear) * 365.2425 * secondsPerDay]: a day
    has 86400 seconds and [365.2425 * 86400 = 31556952]. *)
Definition absoluteToInternal : Z := (absoluteZeroYear - internalYear) * 31556952.
Definition internalToAbsolute : Z := - absoluteToInternal.

Definition unixToInternal : Z :=
  (1969 * 365 + 1969 / 4 - 1969 / 100 + 1969 / 400) * secondsPerDay.
Definition internalToUnix : Z := - unixToInternal.

(** The seconds between the absolute zero year and the Unix epoch:
    [unixToInternal + internalToAbsolute]. *)
Definition unixToAbsolute : Z := 9223372028715321600.

(** A [Time] without monotonic reading, in the location [Local]: [ext] is
    the number of seconds since January 1 of the year 1, an [int64]. *)
Record Time := { wall : Z; ext : Z }.

(** [time.Unix(sec, 0)]. *)
Definition Unix (sec : Z) : Time :=
  {| wall := 0; ext := wrap_int64 (sec + unixToInternal) |}.

Definition unixSec (t : Time) : Z := wrap_int64 (ext t + internalToUnix).

(** [t.abs()]: the seconds since the absolute zero year, in the zone in
    effect at [t]. [zone sec] is the offset east of UTC, in seconds, that the
    location [Local] gives for the Unix time [sec]. The arithmetic is that of
    [int64], then [uint64]. *)
Definition abs (zone : Z -> Z) (t : Time) : Z :=
  let sec := unixSec t in
  let sec := wrap_int64 (sec + zone sec) in
  wrap_uint64 (sec + (unixToInternal + internalToAbsolute)).

Definition Sunday : Z := 0.
Definition Monday : Z := 1.

(** January 1 of the absolute year was a Monday. *)
Definition absWeekday (abs : Z) : Z :=
  let sec := wrap_uint64 (abs + Monday * secondsPerDay) mod secondsPerWeek in
  sec / secondsPerDay.

Definition absClock (abs : Z) : Z * Z * Z :=
  let sec := abs mod secondsPerDay in
  let hour := sec / secondsPerHour in
  let sec := sec - hour * secondsPerHour in
  let min := sec / secondsPerMinute in
  let sec := sec - min * secondsPerMinute in
  (hour, min, sec).

Definition longDayNames : list string :=
  ["Sunday"; "Monday"; "Tuesday"; "Wednesday"; "Thursday"; "Friday"; "Saturday"].

(** The first three letters of the day's name. *)
Definition shortDayName (weekday : Z) : string :=
  String.substring 0 3 (nth (Z.to_nat weekday) longDayNames "").

(** [t.Format("Mon 15:04")]: the abbreviated weekday, a space, the hour on
    two digits, a colon, the minute on two digits. *)
Definition Format_Mon_15_04 (zone : Z -> Z) (t : Time) : string :=
  let a := abs zone t in
  let '(hour, min, _) := absClock a in
  shortDayName (absWeekday a) ++ " " ++ dec_pad 2 hour ++ ":" ++ dec_pad 2 min.

(** ** The calendar reading of the same label

    The local time of day and the weekday of the Unix time [sec], counting
    seconds [local] east of UTC: 1 January 1970 was a Thursday. *)
Definition local_weekday (local sec : Z) : Z := ((sec + local) / 86400 + 4) mod 7.
Definition local_hour (local sec : Z) : Z := ((sec + local) mod 86400) / 3600.
Definition local_minute (local sec : Z) : Z := ((sec + local) mod 3600) / 60.

Definition local_label (zone : Z -> Z) (sec : Z) : string :=
  shortDayName (local_weekday (zone sec) sec) ++ " " ++
  dec_pad 2 (local_hour (zone sec) sec) ++ ":" ++
  dec_pad 2 (local_minute (zone sec) sec).

End GoTime.

(* ------------------------------------------------------------------ *)
(** * net/url: QueryEscape *)

Module Url.
Import Bytes.

(** [shouldEscape(c, encodeQueryComponent)]: letters, digits and the marks
    [-_.~] are kept. *)
Definition shouldEscape (c : ascii) : bool :=
  if is_lower c || is_upper c || is_digit c then false
  else if (c =? "-")%char || (c =? "_")%char || (c =? ".")%char || (c =? "~")%char
  then false
  else true.

Fixpoint QueryEscape (s : string) : string :=
  match s with
  | EmptyString => EmptyString
  | String c rest =>
      if shouldEscape c then
        if (c =? " ")%char then String "+" (QueryEscape rest)
        else
          String "%" (String (hex_digit (code c / 16))
                        (String (hex_digit (code c mod 16)) (QueryEscape rest)))
      else String c (QueryEscape rest)
  end.

End Url.

(* ------------------------------------------------------------------ *)
(** * path: the cleaning that ServeMux applies to a request path *)

Module GoPath.

(** The elements of a path between its slashes. *)
Fixpoint split_slash (s : string) (cur : string) : list string :=
  match s with
  | EmptyString => [cur]
  | String c rest =>
      if (c =? "/")%char then cur :: split_slash rest ""
      else split_slash rest (cur ++ String c EmptyString)
  end.

(** The elements that remain, last one first: empty and [.] elements go, a
    [..] takes the element before it with it, and goes alone at the root. *)
Fixpoint clean_elements (els : list string) (kept : list string) : list string :=
  match els with
  | [] => kept
  | e :: rest =>
      if (e =? "")%string || (e =? ".")%string then clean_elements rest kept
      else if (e =? "..")%string then clean_elements rest (tl kept)
      else clean_elements rest (e :: kept)
  end.

Definition join_rooted (els : list string) : string :=
  match els with
  | [] => "/"
  | _ => fold_right (fun e s => "/" ++ e ++ s) "" els
  end.

(** [path.Clean(p)] for a rooted path [p]. *)
Definition Clean (p : string) : string :=
  join_rooted (rev (clean_elements (split_slash p "") [])).

Definition ends_with_slash (p : string) : bool :=
  match String.get (String.length p - 1) p with
  | Some c => (c =? "/")%char
  | None => false
  end.

(** [cleanPath] of [net/http]: the canonical path of [p], rooted, without
    [.] and [..], keeping a final slash. *)
Definition cleanPath (p : string) : string :=
  if (p =? "")%string then "/" else
  let p := match p with String "/" _ => p | _ => "/" ++ p end in
  let np := Clean p in
  if ends_with_slash p && negb (np =? "/")%string then np ++ "/" else np.

End GoPath.

Import Bytes Strconv.

(* ------------------------------------------------------------------ *)
(** * Errors, panics and results *)

(** The errors of [encoding/json] that reach the program. *)
Inductive json_error : Type :=
| SyntaxError
| UnmarshalTypeError
| io_EOF
| io_ErrUnexpectedEOF.

(** An [error] value: what [errors.New] and [fmt.Errorf] with [%w] build,
    over the errors of the libraries. *)
Inductive error : Type :=
| errors_New (text : string)
| fmt_Errorf (prefix : string) (err : error)
| io_error (text : string)
| json_err (e : json_error).

(** A run-time panic. *)
Inductive panic : Type :=
| index_out_of_range (index length : nat)
| nil_pointer_dereference.

(** The result of a Go function [(T, error)]: a value with a nil error, an
    error, or a panic that unwinds through the caller. *)
Inductive result (A : Type) : Type :=
| Ok (a : A)
| Err (e : error)
| Panic (p : panic).
Arguments Ok {A} a.
Arguments Err {A} e.
Arguments Panic {A} p.

(* ------------------------------------------------------------------ *)
(** * The types of main.go *)

Record LatLong := { Latitude : float64; Longitude : float64 }.

Record GeoResponse := { Results : list LatLong }.

Record Forecast := { Date : string; Temperature : string }.

Record WeatherDisplay := { City : string; Forecasts : list Forecast }.

(** The anonymous struct of the field [Hourly]. *)
Record HourlyData := { Time : list Z; Temperature2m : list float64 }.

Record WeatherResponse := {
  wr_Latitude : float64;
  wr_Longitude : float64;
  Timezone : string;
  Hourly : HourlyData
}.

Definition zero_LatLong : LatLong :=
  {| Latitude := float64_zero; Longitude := float64_zero |}.
Definition zero_GeoResponse : GeoResponse := {| Results := [] |}.
Definition zero_HourlyData : HourlyData := {| Time := []; Temperature2m := [] |}.
Definition zero_WeatherResponse : WeatherResponse :=
  {| wr_Latitude := float64_zero; wr_Longitude := float64_zero;
     Timezone := ""; Hourly := zero_HourlyData |}.
Definition zero_WeatherDisplay : WeatherDisplay := {| City := ""; Forecasts := [] |}.

(* ------------------------------------------------------------------ *)
(** * What a run depends on *)

(** The body of an HTTP response as a reader: the bytes it yields, then the
    end of the stream ([None]) or a read error. *)
Record Body := { data : string; read_err : option error }.

(** A parsed template is what [Execute] writes for the data it is given;
    [handler] drops the error of [Execute]. *)
Definition Template : Type := WeatherDisplay -> string.

Record World := {
  (** [http.Get(url)]: the transport's error or the response's body. *)
  http_Get : string -> error + Body;
  (** [ioutil.ReadFile(name)]. *)
  ReadFile : string -> error + string;
  (** [template.ParseFiles(name)]. *)
  ParseFiles : string -> error + Template;
  (** The zone of [time.Local]: seconds east of UTC at a Unix time. *)
  zone : Z -> Z;
  (** The text of the decoder's errors. *)
  json_text : json_error -> string;
  (** What the [ServeMux] of the release of [net/http] in use does with a
      request that it does not match as it came, from the request target:
      the status and the path of the redirection it answers, or [None] when
      it matches the request after all. The releases differ here: the mux of
      Go 1.21 cleans [r.URL.Path] and redirects with 301, later ones clean
      the escaped path, which can be clean when [r.URL.Path] is not, and a
      recent one redirects with 307. *)
  mux_redirect : string -> option (Z * string)
}.

(** [err.Error()]. *)
Fixpoint Error (W : World) (e : error) : string :=
  match e with
  | errors_New text => text
  | fmt_Errorf prefix err => prefix ++ Error W err
  | io_error text => text
  | json_err j => json_text W j
  end.

(* ------------------------------------------------------------------ *)
(** * Decoding JSON into the types of main.go

    The rules of [encoding/json]: [null] leaves the destination as it is (a
    slice becomes nil), a member whose key matches no field is skipped, a
    member met twice is stored twice, a value of the wrong kind is an
    [UnmarshalTypeError]. An element of an array is stored into the element
    of the slice at its index when the slice has one, and into a zero value
    otherwise (the capacity of the slice past its length is not modelled). *)

Module Decode.
Import Json.

Definition into_float64 (v : value) (cur : float64) : option float64 :=
  match v with
  | Null => Some cur
  | Number lit => ParseFloat lit
  | _ => None
  end.

Definition into_int64 (v : value) (cur : Z) : option Z :=
  match v with
  | Null => Some cur
  | Number lit => ParseInt lit
  | _ => None
  end.

Definition into_string (v : value) (cur : string) : option string :=
  match v with
  | Null => Some cur
  | Str s => Some s
  | _ => None
  end.

Section Slices.
Context {A : Type}.
Variable into : value -> A -> option A.
Variable zero : A.

Fixpoint into_elements (els : list value) (cur : list A) : option (list A) :=
  match els with
  | [] => Some []
  | v :: rest =>
      match into v (hd zero cur) with
      | Some a =>
          match into_elements rest (tl cur) with
          | Some l => Some (a :: l)
          | None => None
          end
      | None => None
      end
  end.

Definition into_slice (v : value) (cur : list A) : option (list A) :=
  match v with
  | Null => Some []
  | Array els => into_elements els cur
  | _ => None
  end.

End Slices.

(** [LatLong]: the fields tagged [latitude] and [longitude]. *)
Fixpoint LatLong_members (ms : list (string * value)) (cur : LatLong)
  : option LatLong :=
  match ms with
  | [] => Some cur
  | (key, v) :: rest =>
      if key_is "latitude" key then
        match into_float64 v (Latitude cur) with
        | Some x => LatLong_members rest {| Latitude := x; Longitude := Longitude cur |}
        | None => None
        end
      else if key_is "longitude" key then
        match into_float64 v (Longitude cur) with
        | Some x => LatLong_members rest {| Latitude := Latitude cur; Longitude := x |}
        | None => None
        end
      else LatLong_members rest cur
  end.

Definition into_LatLong (v : value) (cur : LatLong) : option LatLong :=
  match v with
  | Null => Some cur
  | Object ms => LatLong_members ms cur
  | _ => None
  end.

(** [GeoResponse]: the field tagged [results]. *)
Fixpoint GeoResponse_members (ms : list (string * value)) (cur : GeoResponse)
  : option GeoResponse :=
  match ms with
  | [] => Some cur
  | (key, v) :: rest =>
      if key_is "results" key then
        match into_slice into_LatLong zero_LatLong v (Results cur) with
        | Some l => GeoResponse_members rest {| Results := l |}
        | None => None
        end
      else GeoResponse_members rest cur
  end.

Definition into_GeoResponse (v : value) (cur : GeoResponse) : option GeoResponse :=
  match v with
  | Null => Some cur
  | Object ms => GeoResponse_members ms cur
  | _ => None
  end.

(** The struct of [Hourly]: the fields tagged [time] and [temperature_2m]. *)
Fixpoint Hourly_members (ms : list (string * value)) (cur : HourlyData)
  : option HourlyData :=
  match ms with
  | [] => Some cur
  | (key, v) :: rest =>
      if key_is "time" key then
        match into_slice into_int64 0 v (Time cur) with
        | Some l => Hourly_members rest {| Time := l; Temperature2m := Temperature2m cur |}
        | None => None
        end
      else if key_is "temperature_2m" key then
        match into_slice into_float64 float64_zero v (Temperature2m cur) with
        | Some l => Hourly_members rest {| Time := Time cur; Temperature2m := l |}
        | None => None
        end
      else Hourly_members rest cur
  end.

Definition into_Hourly (v : value) (cur : HourlyData) : option HourlyData :=
  match v with
  | Null => Some cur
  | Object ms => Hourly_members ms cur
  | _ => None
  end.

(** [WeatherResponse]: the fields tagged [latitude], [longitude],
    [timezone] and [hourly]. *)
Fixpoint WeatherResponse_members (ms : list (string * value))
  (cur : WeatherResponse) : option WeatherResponse :=
  match ms with
  | [] => Some cur
  | (key, v) :: rest =>
      if key_is "latitude" key then
        match into_float64 v (wr_Latitude cur) with
        | Some x =>
            WeatherResponse_members rest
              {| wr_Latitude := x; wr_Longitude := wr_Longitude cur;
                 Timezone := Timezone cur; Hourly := Hourly cur |}
        | None => None
        end
      else if key_is "longitude" key then
        match into_float64 v (wr_Longitude cur) with
        | Some x =>
            WeatherResponse_members rest
              {| wr_Latitude := wr_Latitude cur; wr_Longitude := x;
                 Timezone := Timezone cur; Hourly := Hourly cur |}
        | None => None
        end
      else if key_is "timezone" key then
        match into_string v (Timezone cur) with
        | Some x =>
            WeatherResponse_members rest
              {| wr_Latitude := wr_Latitude cur; wr_Longitude := wr_Longitude cur;
                 Timezone := x; Hourly := Hourly cur |}
        | None => None
        end
      else if key_is "hourly" key then
        match into_Hourly v (Hourly cur) with
        | Some x =>
            WeatherResponse_members rest
              {| wr_Latitude := wr_Latitude cur; wr_Longitude := wr_Longitude cur;
                 Timezone := Timezone cur; Hourly := x |}
        | None => None
        end
      else WeatherResponse_members rest cur
  end.

Definition into_WeatherResponse (v : value) (cur : WeatherResponse)
  : option WeatherResponse :=
  match v with
  | Null => Some cur
  | Object ms => WeatherResponse_members ms cur
  | _ => None
  end.

(** [json.Unmarshal([]byte(raw), &weatherResponse)] on a zero
    [weatherResponse]: the whole text must be one JSON value. *)
Definition Unmarshal_WeatherResponse (raw : string) : error + WeatherResponse :=
  match first_value raw with
  | Got v rest =>
      if is_blank rest then
        match into_WeatherResponse v zero_WeatherResponse with
        | Some w => inr w
        | None => inl (json_err UnmarshalTypeError)
        end
      else inl (json_err SyntaxError)
  | Short => inl (json_err SyntaxError)
  | Bad => inl (json_err SyntaxError)
  end.

(** Whether the end of a value shows without the byte after it. *)
Definition self_delimited (v : value) : bool :=
  match v with
  | Array _ => true
  | Object _ => true
  | _ => false
  end.

(** [json.NewDecoder(body).Decode(&response)] on a zero [response]: the
    first JSON value of the stream, whatever follows it. An array or an
    object ends at its closing byte. A number, a string or a literal ends at
    the byte after it, whatever that byte is: the scanner keeps its complaint
    about a byte that cannot follow for a next call, and there is none. At
    the end of the data the reader is asked for that byte, and its error, if
    it has one, is returned. *)
Definition Decode_GeoResponse (body : Body) : error + GeoResponse :=
  let store (v : value) : error + GeoResponse :=
    match into_GeoResponse v zero_GeoResponse with
    | Some g => inr g
    | None => inl (json_err UnmarshalTypeError)
    end in
  match first_value (data body) with
  | Got v rest =>
      if self_delimited v then store v
      else
        match rest with
        | String _ _ => store v
        | EmptyString =>
            match read_err body with
            | None => store v
            | Some e => inl e
            end
        end
  | Short =>
      match read_err body with
      | Some e => inl e
      | None =>
          if is_blank (data body) then inl (json_err io_EOF)
          else inl (json_err io_ErrUnexpectedEOF)
      end
  | Bad => inl (json_err SyntaxError)
  end.

End Decode.

(* ------------------------------------------------------------------ *)
(** * net/http: requests, responses and the mux *)

Record Request := {
  Method : string;
  (** The request target as sent. *)
  RequestURI : string;
  (** [r.ProtoAtLeast(1, 1)]. *)
  ProtoAtLeast_1_1 : bool;
  (** [r.URL.Path]. *)
  URL_Path : string;
  (** The error of [r.ParseForm()], if any. *)
  ParseForm : option error;
  (** [r.Form] after [r.ParseForm()]: the values of each parameter. *)
  Form : list (string * list string)
}.

(** [r.FormValue(key)] once the form is parsed: the first value of [key],
    or the empty string. *)
Definition FormValue (r : Request) (key : string) : string :=
  match find (fun kv => (fst kv =? key)%string) (Form r) with
  | Some (_, v :: _) => v
  | _ => ""
  end.

(** What a handler leaves in its [ResponseWriter]: the status, the headers
    it set, the bytes it wrote. *)
Record Response := {
  StatusCode : Z;
  Header : list (string * string);
  ResponseBody : string
}.

Definition StatusOK : Z := 200.
Definition StatusTemporaryRedirect : Z := 307.
Definition StatusBadRequest : Z := 400.
Definition StatusNotFound : Z := 404.
Definition StatusInternalServerError : Z := 500.

(** How the server answers a request: the response of a handler, a
    redirection of the mux to another path, or a handler that panicked (the
    server then closes the connection without a response). *)
Inductive reply : Type :=
| Wrote (w : Response)
| Moved (code : Z) (path : string)
| Crashed (p : panic).

(** [http.Error(w, text, code)]. *)
Definition http_Error (text : string) (code : Z) : reply :=
  Wrote {| StatusCode := code;
           Header := [("Content-Type", "text/plain; charset=utf-8");
                      ("X-Content-Type-Options", "nosniff")];
           ResponseBody := text ++ bytes [10] |}.

(** [http.NotFound(w, r)]. *)
Definition http_NotFound : reply := http_Error "404 page not found" StatusNotFound.

Definition HandlerFunc : Type := World -> Request -> reply.

Record muxEntry := { pattern : string; h : HandlerFunc }.

Module ServeMux.

Definition registered (m : list muxEntry) (path : string) : option muxEntry :=
  find (fun e => (pattern e =? path)%string) m.

(** The longest pattern ending in a slash that is a prefix of [path]. *)
Fixpoint longest_prefix (m : list muxEntry) (path : string) (best : option muxEntry)
  : option muxEntry :=
  match m with
  | [] => best
  | e :: rest =>
      let better :=
        match best with
        | None => true
        | Some b => (String.length (pattern b) <? String.length (pattern e))%nat
        end in
      if GoPath.ends_with_slash (pattern e) && HasPrefix path (pattern e) && better
      then longest_prefix rest path (Some e)
      else longest_prefix rest path best
  end.

(** [mux.match(path)]: the pattern equal to [path], else the longest
    pattern ending in a slash that [path] starts with. *)
Definition mux_match (m : list muxEntry) (path : string) : option muxEntry :=
  match registered m path with
  | Some e => Some e
  | None => longest_prefix m path None
  end.

(** [mux.handler(host, path)] for patterns without a host. *)
Definition handler_for (m : list muxEntry) (path : string) : HandlerFunc :=
  match mux_match m path with
  | Some e => h e
  | None => fun _ _ => http_NotFound
  end.

(** Whether [path] is not registered while [path/] is. *)
Definition shouldRedirect (m : list muxEntry) (path : string) : bool :=
  match registered m path with
  | Some _ => false
  | None =>
      if (path =? "")%string then false
      else
        match registered m (path ++ "/") with
        | Some _ => negb (GoPath.ends_with_slash path)
        | None => false
        end
  end.

(** [mux.ServeHTTP(w, r)]: a request for [*] is a bad request; otherwise
    [mux.Handler(r)] finds the handler, which is called. A CONNECT request is
    matched on its path as it is, any other on its cleaned path. A request
    whose path the mux would change, by cleaning it or by adding the slash of
    a registered pattern, is answered as the release of [net/http] in use
    decides ([mux_redirect]): with a redirection, or by the handler of its
    path all the same. *)
Definition ServeHTTP (m : list muxEntry) (W : World) (r : Request) : reply :=
  if (RequestURI r =? "*")%string then
    Wrote {| StatusCode := StatusBadRequest;
             Header := if ProtoAtLeast_1_1 r then [("Connection", "close")] else [];
             ResponseBody := "" |}
  else
    let path :=
      if (Method r =? "CONNECT")%string then URL_Path r
      else GoPath.cleanPath (URL_Path r) in
    if shouldRedirect m path || negb (path =? URL_Path r)%string then
      match mux_redirect W (RequestURI r) with
      | Some (code, target) => Moved code target
      | None => handler_for m (URL_Path r) W r
      end
    else handler_for m (URL_Path r) W r.

End ServeMux.

(* ------------------------------------------------------------------ *)
(** * main.go *)

(** The [endpoint] of [getLatLong]. *)
Definition geo_endpoint (city : string) : string :=
  "https://geocoding-api.open-meteo.com/v1/search?name=" ++ Url.QueryEscape city
  ++ "&count=1&language=ru&format=json".

(** [getLatLong]: the pointer it returns with a nil error is never nil;
    the result holds the [LatLong] it points to. *)
Definition getLatLong (W : World) (city : string) : result LatLong :=
  let endpoint := geo_endpoint city in
  match http_Get W endpoint with
  | inl err => Err (fmt_Errorf "error making request to Geo API: " err)
  | inr resp =>
      match Decode.Decode_GeoResponse resp with
      | inl err => Err (fmt_Errorf "error decoding response: " err)
      | inr response =>
          if (List.length (Results response) <? 1)%nat then
            Err (errors_New "no results found")
          else
            match nth_error (Results response) 0 with
            | Some first => Ok first
            | None => Panic (index_out_of_range 0 (List.length (Results response)))
            end
      end
  end.

(** The [endpoint] of [getWeather]. *)
Definition weather_endpoint (latLong : LatLong) : string :=
  "https://api.open-meteo.com/v1/forecast?latitude=" ++ format_f 6 (Latitude latLong)
  ++ "&longitude=" ++ format_f 6 (Longitude latLong)
  ++ "&hourly=temperature_2m&timeformat=unixtime".

Definition getWeather (W : World) (latLong : LatLong) : result string :=
  let endpoint := weather_endpoint latLong in
  match http_Get W endpoint with
  | inl err => Err (fmt_Errorf "error making request to Weather API: " err)
  | inr resp =>
      match read_err resp with
      | Some err => Err (fmt_Errorf "error reading response body " err)
      | None => Ok (data resp)
      end
  end.

(** The bytes that follow [%.1f] in the format string of
    [extractWeatherData]: C3 82 C2 B0 43. *)
Definition temperature_suffix : string := bytes [195; 130; 194; 176; 67].

(** The loop of [extractWeatherData] from index [i] on: [times] is what
    remains of [weatherResponse.Hourly.Time], [temps] the whole of
    [weatherResponse.Hourly.Temperature2m]. *)
Fixpoint range_Time (W : World) (temps : list float64) (i : nat)
  (times : list Z) (forecasts : list Forecast) : result (list Forecast) :=
  match times with
  | [] => Ok forecasts
  | t :: rest =>
      let date := GoTime.Unix t in
      match nth_error temps i with
      | None => Panic (index_out_of_range i (List.length temps))
      | Some temp =>
          let forecast :=
            {| Date := GoTime.Format_Mon_15_04 (zone W) date;
               Temperature := format_f 1 temp ++ temperature_suffix |} in
          range_Time W temps (S i) rest (forecasts ++ [forecast])
      end
  end.

(** The part of [extractWeatherData] after the decoding. *)
Definition format_series (W : World) (city : string)
  (weatherResponse : WeatherResponse) : result WeatherDisplay :=
  match range_Time W (Temperature2m (Hourly weatherResponse)) 0
          (Time (Hourly weatherResponse)) [] with
  | Ok forecasts => Ok {| City := city; Forecasts := forecasts |}
  | Err e => Err e
  | Panic p => Panic p
  end.

Definition extractWeatherData (W : World) (city : string) (rawWeather : string)
  : result WeatherDisplay :=
  match Decode.Unmarshal_WeatherResponse rawWeather with
  | inl err => Err (fmt_Errorf "error decoding weather response: " err)
  | inr weatherResponse => format_series W city weatherResponse
  end.

Definition home (W : World) (r : Request) : reply :=
  match ReadFile W "views/index.html" with
  | inl _ => http_Error "failed to open file" StatusInternalServerError
  | inr file =>
      Wrote {| StatusCode := StatusOK;
               Header := [("Content-Type", "text/html")];
               ResponseBody := file |}
  end.

(** [tmpl.Execute(w, data)] on the pointer that [template.ParseFiles]
    returned: nil when the parse failed. *)
Definition Execute (tmpl : option Template) (data : WeatherDisplay) : reply :=
  match tmpl with
  | None => Crashed nil_pointer_dereference
  | Some t => Wrote {| StatusCode := StatusOK; Header := []; ResponseBody := t data |}
  end.

Definition handler (W : World) (r : Request) : reply :=
  if negb (URL_Path r =? "/weather")%string then http_NotFound
  else
    match ParseForm r with
    | Some _ => http_Error "could not parse the form" StatusInternalServerError
    | None =>
        let city := FormValue r "city" in
        match getLatLong W city with
        | Panic p => Crashed p
        | Err _ => http_Error "internal server error" StatusInternalServerError
        | Ok latLong =>
            match getWeather W latLong with
            | Panic p => Crashed p
            | Err err => http_Error (Error W err) StatusInternalServerError
            | Ok weather =>
                match extractWeatherData W city weather with
                | Panic p => Crashed p
                | Err err => http_Error (Error W err) StatusInternalServerError
                | Ok data =>
                    let tmpl :=
                      match ParseFiles W "views/weather.html" with
                      | inr t => Some t
                      | inl _ => None
                      end in
                    Execute tmpl data
                end
            end
        end
    end.

(** The routes that [main] registers in the default mux. *)
Definition routes : list muxEntry :=
  [ {| pattern := "/"; h := home |}; {| pattern := "/weather"; h := handler |} ].

(** The server of [main]: [http.ListenAndServe] with a nil handler answers
    [OPTIONS *] itself and serves every other request through the default
    mux. *)
Definition serve (W : World) (r : Request) : reply :=
  if (RequestURI r =? "*")%string && (Method r =? "OPTIONS")%string then
    Wrote {| StatusCode := StatusOK; Header := [("Content-Length", "0")];
             ResponseBody := "" |}
  else ServeMux.ServeHTTP routes W r.

(* ------------------------------------------------------------------ *)
(** * Sample runs

    Worlds and requests on which the program is evaluated below. The
    services answer for Paris as in the end-to-end example of the
    specification. *)

Module Sample.

Definition geo_body : string :=
  (with_quotes "{'results':[{'latitude':48.8566,'longitude':2.3522}]}").

Definition weather_body : string :=
  (with_quotes "{'hourly':{'time':[1700000000],'temperature_2m':[12.3]}}").

(** One timestamp and no temperature. *)
Definition short_body : string :=
  (with_quotes "{'hourly':{'time':[1700000000],'temperature_2m':[]}}").

Definition paris_url : string :=
  "https://geocoding-api.open-meteo.com/v1/search?name=Paris&count=1&language=ru&format=json".

Definition forecast_url : string :=
  "https://api.open-meteo.com/v1/forecast?latitude=48.856600&longitude=2.352200&hourly=temperature_2m&timeformat=unixtime".

Definition whole (text : string) : Body := {| data := text; read_err := None |}.

(** A template that writes the city and each row. *)
Definition rows : Template :=
  fun d =>
    City d ++ ":" ++
    String.concat ";" (map (fun f => Date f ++ "=" ++ Temperature f) (Forecasts d)).

Definition json_words (e : json_error) : string :=
  match e with
  | SyntaxError => "invalid character"
  | UnmarshalTypeError => "json: cannot unmarshal"
  | io_EOF => "EOF"
  | io_ErrUnexpectedEOF => "unexpected EOF"
  end.

(** The path of a request target: what comes before the query. *)
Fixpoint target_path (target : string) : string :=
  match target with
  | EmptyString => EmptyString
  | String c rest => if (c =? "?")%char then EmptyString else String c (target_path rest)
  end.

(** A mux that cleans the path of the request target as it was sent, and
    redirects with 307 when cleaning changed it. *)
Definition redirect_307 (target : string) : option (Z * string) :=
  let path := target_path target in
  if (GoPath.cleanPath path =? path)%string then None
  else Some (StatusTemporaryRedirect, GoPath.cleanPath path).

(** Both services answer, the files are there, the zone is UTC. *)
Definition world : World :=
  {| http_Get := fun url =>
       if (url =? paris_url)%string then inr (whole geo_body)
       else if (url =? forecast_url)%string then inr (whole weather_body)
       else inl (io_error "no such host");
     ReadFile := fun _ => inr "<html></html>";
     ParseFiles := fun _ => inr rows;
     zone := fun _ => 0;
     json_text := json_words;
     mux_redirect := redirect_307 |}.

(** The services answer with [geo] and [weather]. *)
Definition world_with (geo weather : error + Body) (tmpl : error + Template) : World :=
  {| http_Get := fun url => if (url =? paris_url)%string then geo else weather;
     ReadFile := fun _ => inr "<html></html>";
     ParseFiles := fun _ => tmpl;
     zone := fun _ => 0;
     json_text := json_words;
     mux_redirect := redirect_307 |}.

(** The geocoding service cannot be reached. *)
Definition geo_down : World :=
  world_with (inl (io_error "connection refused")) (inr (whole weather_body)) (inr rows).

(** The weather service cannot be reached. *)
Definition weather_down : World :=
  world_with (inr (whole geo_body)) (inl (io_error "connection refused")) (inr rows).

(** The weather service answers with text that is not JSON. *)
Definition weather_garbled : World :=
  world_with (inr (whole geo_body)) (inr (whole "<html>")) (inr rows).

(** The geocoding service knows no such city. *)
Definition no_match : World :=
  world_with (inr (whole (with_quotes "{'results':[]}"))) (inr (whole weather_body)) (inr rows).

(** The template of the results cannot be read. *)
Definition no_template : World :=
  world_with (inr (whole geo_body)) (inr (whole weather_body))
    (inl (io_error "open views/weather.html: no such file or directory")).

Definition get (path city : string) : Request :=
  {| Method := "GET"; RequestURI := path ++ "?city=" ++ city;
     ProtoAtLeast_1_1 := true; URL_Path := path;
     ParseForm := None; Form := [("city", [city])] |}.

Definition paris : Request := get "/weather" "Paris".
Definition bogus : Request := get "/bogus" "Paris".

End Sample.

(** The label that the specification gives for the temperature 12.3: the
    digits, the degree sign in UTF-8 (C2 B0) and the letter C. *)
Definition label_12_3_degrees_C : string := "12.3" ++ bytes [194; 176; 67].

(** A JSON value without a time series: [null], or an object in which
    every member for the field [hourly] is [null] or an object without an
    array for the field [time], its members for [time], if any, being
    [null]. *)
Definition without_time (v : Json.value) : bool :=
  match v with
  | Json.Object ms =>
      forallb (fun kv =>
        if Json.key_is "hourly" (fst kv) then
          match snd kv with
          | Json.Null => true
          | Json.Object hms =>
              forallb (fun kv' =>
                if Json.key_is "time" (fst kv') then
                  match snd kv' with
                  | Json.Null => true
                  | _ => false
                  end
                else true) hms
          | _ => false
          end
        else true) ms
  | Json.Null => true
  | _ => false
  end.

(** ** The kinds of values that the fields take

    A JSON value is of the kind of a Go type when it is [null] or what the
    type holds: a number in the range of [float64], an integer in the range
    of [int64], a string, an array of values of the kind of the elements, an
    object whose members for the fields of a struct are of the kinds of
    these fields. The members for no field are of any kind. *)
Definition float64_kind (v : Json.value) : bool :=
  match v with
  | Json.Null => true
  | Json.Number lit => match ParseFloat lit with Some _ => true | None => false end
  | _ => false
  end.

Definition int64_kind (v : Json.value) : bool :=
  match v with
  | Json.Null => true
  | Json.Number lit => match ParseInt lit with Some _ => true | None => false end
  | _ => false
  end.

Definition string_kind (v : Json.value) : bool :=
  match v with
  | Json.Null => true
  | Json.Str _ => true
  | _ => false
  end.

Definition slice_kind (element : Json.value -> bool) (v : Json.value) : bool :=
  match v with
  | Json.Null => true
  | Json.Array els => forallb element els
  | _ => false
  end.

Definition Hourly_member_kind (kv : string * Json.value) : bool :=
  if Json.key_is "time" (fst kv) then slice_kind int64_kind (snd kv)
  else if Json.key_is "temperature_2m" (fst kv) then slice_kind float64_kind (snd kv)
  else true.

Definition Hourly_kind (v : Json.value) : bool :=
  match v with
  | Json.Null => true
  | Json.Object ms => forallb Hourly_member_kind ms
  | _ => false
  end.

Definition WeatherResponse_member_kind (kv : string * Json.value) : bool :=
  if Json.key_is "latitude" (fst kv) then float64_kind (snd kv)
  else if Json.key_is "longitude" (fst kv) then float64_kind (snd kv)
  else if Json.key_is "timezone" (fst kv) then string_kind (snd kv)
  else if Json.key_is "hourly" (fst kv) then Hourly_kind (snd kv)
  else true.

Definition WeatherResponse_kind (v : Json.value) : bool :=
  match v with
  | Json.Null => true
  | Json.Object ms => forallb WeatherResponse_member_kind ms
  | _ => false
  end.

(** Whether a decoder stored a value. *)
Definition stored {A : Type} (o : option A) : bool :=
  match o with
  | Some _ => true
  | None => false
  end.

(** The forecast of one timestamp and one temperature. *)
Definition forecast_of (W : World) (t : Z) (temp : float64) : Forecast :=
  {| Date := GoTime.Format_Mon_15_04 (zone W) (GoTime.Unix t);
     Temperature := format_f 1 temp ++ temperature_suffix |}.

(* ------------------------------------------------------------------ *)
(** * Notions for the further properties *)

(** A [float64] that is a number: a zero or a finite value. *)
Definition ordinary (f : float64) : bool :=
  match f with
  | S754_zero _ => true
  | S754_finite _ _ _ => true
  | _ => false
  end.

Fixpoint all_bytes (ok : ascii -> bool) (s : string) : bool :=
  match s with
  | EmptyString => true
  | String c rest => ok c && all_bytes ok rest
  end.

(** The bytes that [url.QueryEscape] writes: the unreserved ones, [+] for a
    space and [%] before two hexadecimal digits. *)
Definition query_safe (c : ascii) : bool :=
  is_lower c || is_upper c || is_digit c ||
  (c =? "-")%char || (c =? "_")%char || (c =? ".")%char || (c =? "~")%char ||
  (c =? "+")%char || (c =? "%")%char.

(** The Unix times whose local time [Time] holds without wrapping. *)
Definition in_calendar (zone : Z -> Z) (sec : Z) : Prop :=
  (min_int64 <= sec <= max_int64) /\
  (- GoTime.unixToAbsolute <= sec + zone sec <= max_int64).

(** The forecast of one timestamp and one temperature, with the date label
    read off the calendar. *)
Definition calendar_forecast (W : World) (t : Z) (temp : float64) : Forecast :=
  {| Date := GoTime.local_label (zone W) t;
     Temperature := format_f 1 temp ++ temperature_suffix |}.

(** The coordinate that the sample geocoding answer decodes to: the
    binary64 values nearest to 48.8566 and 2.3522. *)
Definition paris_latLong : LatLong :=
  {| Latitude := S754_finite false 6875955173580918 (-47);
     Longitude := S754_finite false 5296683521750440 (-51) |}.

(** The geocoding service answers with the sample body followed by
    [tail]. *)
Definition geo_followed_by (tail : string) : World :=
  Sample.world_with (inr (Sample.whole (Sample.geo_body ++ tail)))
    (inr (Sample.whole Sample.weather_body)) (inr Sample.rows).

(** The integers from 0 up to [n], [n] left out. *)
Definition below (n : nat) : list Z := map Z.of_nat (seq 0 n).

(** A label ["Mon 15:04"]: a weekday out of seven, the hour and the minute
    of a day, each on two digits. *)
Definition date_label (weekday hour minute : Z) : string :=
  GoTime.shortDayName weekday ++ " " ++ dec_pad 2 hour ++ ":" ++ dec_pad 2 minute.

(** A number with one decimal: an optional minus sign, at least one digit,
    a point and one digit. *)
Definition one_decimal (s : string) : Prop :=
  exists sign digits d,
    s = sign ++ digits ++ "." ++ String d "" /\
    (sign = "" \/ sign = "-") /\
    digits <> "" /\ all_bytes is_digit digits = true /\ is_digit d = true.

(** How many times the byte [c] occurs in [s]. *)
Fixpoint count_byte (c : ascii) (s : string) : nat :=
  match s with
  | EmptyString => O
  | String x rest => ((if (x =? c)%char then 1 else 0) + count_byte c rest)%nat
  end.

(** The bytes of a number in plain decimal notation. *)
Definition number_byte (c : ascii) : bool :=
  is_digit c || (c =? "-")%char || (c =? ".")%char.

(** A coordinate whose two members are numbers. *)
Definition ordinary_LatLong (l : LatLong) : bool :=
  ordinary (Latitude l) && ordinary (Longitude l).

(* ------------------------------------------------------------------ *)
(** * The loop of extractWeatherData *)

Section Loop.
Variable W : World.
Variable temps : list float64.

(** While the temperatures last, the loop appends one forecast for each
    timestamp, built from the temperature at the same index. *)
Lemma range_Time_in_bounds (times : list Z) :
  forall (i : nat) (acc : list Forecast),
    (i + List.length times <= List.length temps)%nat ->
    range_Time W temps i times acc =
    Ok (acc ++ map (fun p => forecast_of W (fst p) (snd p))
                   (combine times (skipn i temps)))%list.
Proof.
  induction times as [| t rest IH]; intros i acc Hlen; simpl in *.
  - now rewrite app_nil_r.
  - destruct (nth_error temps i) as [temp |] eqn:Hi.
    + rewrite IH by lia.
      assert (Hsk : skipn i temps = temp :: skipn (S i) temps).
      { clear - Hi. revert i Hi.
        induction temps as [| x l IHl]; intros [| i] Hi; simpl in *;
          try discriminate.
        - now inversion Hi.
        - now apply IHl. }
      rewrite Hsk. simpl. unfold forecast_of at 3. simpl.
      now rewrite <- app_assoc.
    + apply nth_error_None in Hi. lia.
Qed.

(** When the timestamps outlast the temperatures, the loop panics at the
    first index past the temperatures. *)
Lemma range_Time_out_of_bounds (times : list Z) :
  forall (i : nat) (acc : list Forecast),
    (i <= List.length temps)%nat ->
    (List.length temps < i + List.length times)%nat ->
    range_Time W temps i times acc =
    Panic (index_out_of_range (List.length temps) (List.length temps)).
Proof.
  induction times as [| t rest IH]; intros i acc Hi Hlen; simpl in *.
  - lia.
  - destruct (nth_error temps i) as [temp |] eqn:Hnth.
    + assert (i < List.length temps)%nat
        by (apply nth_error_Some; congruence).
      apply IH; lia.
    + apply nth_error_None in Hnth.
      replace i with (List.length temps) by lia. reflexivity.
Qed.

End Loop.

(** The forecasts of a series whose temperatures are as many as its
    timestamps, or more. *)
Lemma format_series_in_bounds (W : World) (city : string) (wr : WeatherResponse) :
  (List.length (Time (Hourly wr)) <= List.length (Temperature2m (Hourly wr)))%nat ->
  format_series W city wr =
  Ok {| City := city;
        Forecasts := map (fun p => forecast_of W (fst p) (snd p))
                         (combine (Time (Hourly wr)) (Temperature2m (Hourly wr))) |}.
Proof.
  intros Hlen. unfold format_series.
  rewrite range_Time_in_bounds by (simpl; lia). reflexivity.
Qed.

Lemma format_series_out_of_bounds (W : World) (city : string) (wr : WeatherResponse) :
  (List.length (Temperature2m (Hourly wr)) < List.length (Time (Hourly wr)))%nat ->
  format_series W city wr =
  Panic (index_out_of_range (List.length (Temperature2m (Hourly wr)))
                            (List.length (Temperature2m (Hourly wr)))).
Proof.
  intros Hlen. unfold format_series.
  rewrite range_Time_out_of_bounds by (simpl; lia). reflexivity.
Qed.

(** [extractWeatherData] returns an error exactly when the decoding
    fails. *)
Lemma extractWeatherData_error_iff (W : World) (city raw : string) :
  (exists e, extractWeatherData W city raw = Err e) <->
  (exists e, Decode.Unmarshal_WeatherResponse raw = inl e).
Proof.
  unfold extractWeatherData.
  destruct (Decode.Unmarshal_WeatherResponse raw) as [e | wr]; split.
  - intros _. now exists e.
  - intros _. eexists. reflexivity.
  - intros [e H].
    destruct (Nat.le_gt_cases (List.length (Time (Hourly wr)))
                (List.length (Temperature2m (Hourly wr)))) as [Hl | Hl].
    + rewrite format_series_in_bounds in H by exact Hl. discriminate.
    + rewrite format_series_out_of_bounds in H by exact Hl. discriminate.
  - intros [e H]. discriminate.
Qed.

(* ------------------------------------------------------------------ *)
(** * The date label and the calendar *)

Section Calendar.
Import GoTime.

Lemma wrap_int64_small (x : Z) : - 2 ^ 63 <= x < 2 ^ 63 -> wrap_int64 x = x.
Proof. intros H. unfold wrap_int64. rewrite Z.mod_small; lia. Qed.

Lemma wrap_int64_add (a b : Z) : wrap_int64 (wrap_int64 a + b) = wrap_int64 (a + b).
Proof.
  unfold wrap_int64.
  replace ((a + 2 ^ 63) mod 2 ^ 64 - 2 ^ 63 + b + 2 ^ 63)
    with ((a + 2 ^ 63) mod 2 ^ 64 + b) by lia.
  replace (a + b + 2 ^ 63) with ((a + 2 ^ 63) + b) by lia.
  now rewrite Zplus_mod_idemp_l.
Qed.

(** [time.Unix] keeps the seconds it is given. *)
Lemma unixSec_Unix (sec : Z) :
  min_int64 <= sec <= max_int64 -> unixSec (Unix sec) = sec.
Proof.
  intros H. unfold unixSec, Unix. simpl ext.
  rewrite wrap_int64_add.
  replace (sec + unixToInternal + internalToUnix) with sec
    by (unfold internalToUnix; lia).
  apply wrap_int64_small. unfold min_int64, max_int64 in H. lia.
Qed.

Lemma unixToAbsolute_eq : unixToInternal + internalToAbsolute = unixToAbsolute.
Proof. reflexivity. Qed.

Lemma weekday_of_absolute (l : Z) :
  ((l + unixToAbsolute + 86400) mod 604800) / 86400 = (l / 86400 + 4) mod 7.
Proof.
  unfold unixToAbsolute.
  replace (l + 9223372028715321600 + 86400)
    with ((l + 345600) + 15250284439013 * 604800) by lia.
  rewrite Z.mod_add by lia.
  change 604800 with (86400 * 7).
  rewrite Z.rem_mul_r by lia.
  replace (l + 345600) with (l + 4 * 86400) by lia.
  rewrite Z.div_add by lia. rewrite Z.mod_add by lia.
  rewrite Z.mul_comm, Z.div_add by lia.
  rewrite Z.div_small by (apply Z.mod_pos_bound; lia). lia.
Qed.

Lemma hour_of_absolute (l : Z) :
  ((l + unixToAbsolute) mod 86400) / 3600 = (l mod 86400) / 3600.
Proof.
  unfold unixToAbsolute.
  replace (l + 9223372028715321600) with (l + 106751991073094 * 86400) by lia.
  now rewrite Z.mod_add by lia.
Qed.

Lemma minute_of_day (s : Z) :
  (s mod 86400 - (s mod 86400) / 3600 * 3600) / 60 = (s mod 3600) / 60.
Proof.
  f_equal.
  rewrite <- (Z.mod_mod_divide s 86400 3600) by (exists 24; reflexivity).
  rewrite (Z.mod_eq (s mod 86400) 3600) by lia. lia.
Qed.

(** As long as the local time is not before the absolute zero year (some
    292 billion years ago) and fits an [int64], the arithmetic of [abs] does
    not wrap. *)
Lemma abs_Unix (zone : Z -> Z) (sec : Z) :
  min_int64 <= sec <= max_int64 ->
  - unixToAbsolute <= sec + zone sec <= max_int64 ->
  abs zone (Unix sec) = sec + zone sec + unixToAbsolute.
Proof.
  intros Hs Hl. unfold abs. rewrite unixSec_Unix by exact Hs.
  rewrite unixToAbsolute_eq.
  unfold unixToAbsolute, max_int64, min_int64 in *.
  rewrite wrap_int64_small by lia.
  unfold wrap_uint64. apply Z.mod_small. lia.
Qed.

(** In that range [Format] writes the weekday, the hour and the minute of
    the calendar. *)
Lemma Format_Mon_15_04_calendar (zone : Z -> Z) (sec : Z) :
  min_int64 <= sec <= max_int64 ->
  - unixToAbsolute <= sec + zone sec <= max_int64 ->
  Format_Mon_15_04 zone (Unix sec) = local_label zone sec.
Proof.
  intros Hs Hl. unfold Format_Mon_15_04, local_label.
  rewrite (abs_Unix zone sec Hs Hl).
  unfold absClock, absWeekday, local_weekday, local_hour, local_minute.
  change secondsPerDay with 86400. change secondsPerHour with 3600.
  change secondsPerMinute with 60. change secondsPerWeek with 604800.
  change (Monday * 86400) with 86400.
  assert (Hw : wrap_uint64 (sec + zone sec + unixToAbsolute + 86400)
               = sec + zone sec + unixToAbsolute + 86400).
  { unfold wrap_uint64. apply Z.mod_small.
    unfold unixToAbsolute, max_int64 in *. lia. }
  rewrite Hw, weekday_of_absolute.
  rewrite hour_of_absolute.
  replace ((sec + zone sec + unixToAbsolute) mod 86400)
    with ((sec + zone sec) mod 86400).
  2:{ unfold unixToAbsolute.
      replace (sec + zone sec + 9223372028715321600)
        with (sec + zone sec + 106751991073094 * 86400) by lia.
      now rewrite Z.mod_add by lia. }
  now rewrite minute_of_day.
Qed.

End Calendar.

(* ------------------------------------------------------------------ *)
(** * Rounding to a number of decimals *)

(** The integer that [round_half_even] picks is within one half of the
    quotient. *)
Lemma round_half_even_nearest (num den : Z) :
  0 < den -> Z.abs (2 * num - 2 * den * round_half_even num den) <= den.
Proof.
  intros Hden. unfold round_half_even.
  pose proof (Z.div_mod num den ltac:(lia)) as Hdm.
  pose proof (Z.mod_pos_bound num den Hden) as Hr.
  cbv zeta. set (q := num / den) in *. set (r := num mod den) in *.
  clearbody q r.
  destruct (2 * r ?= den) eqn:Hc.
  - apply Z.compare_eq in Hc. destruct (Z.even q); apply Z.abs_le; nia.
  - rewrite Z.compare_lt_iff in Hc. apply Z.abs_le; nia.
  - rewrite Z.compare_gt_iff in Hc. apply Z.abs_le; nia.
Qed.

(** A finite value [m * 2 ^ e] below zero exponent is scaled and rounded
    to the nearest multiple of [10 ^ - prec]. *)
Lemma scaled_magnitude_nearest (prec : nat) (m : positive) (e : Z) :
  e < 0 ->
  Z.abs (2 * (Zpos m * 10 ^ Z.of_nat prec)
         - 2 * 2 ^ (- e) * scaled_magnitude prec m e) <= 2 ^ (- e).
Proof.
  intros He. unfold scaled_magnitude.
  destruct (0 <=? e) eqn:H0; [apply Z.leb_le in H0; lia |].
  apply round_half_even_nearest. apply Z.pow_pos_nonneg; lia.
Qed.

(** An integral value is written exactly. *)
Lemma scaled_magnitude_exact (prec : nat) (m : positive) (e : Z) :
  0 <= e ->
  scaled_magnitude prec m e = Zpos m * 2 ^ e * 10 ^ Z.of_nat prec.
Proof.
  intros He. unfold scaled_magnitude.
  destruct (0 <=? e) eqn:H0; [reflexivity | apply Z.leb_gt in H0; lia].
Qed.

(* ------------------------------------------------------------------ *)
(** * The routes of main *)

Section Routes.
Import GoPath ServeMux.

Lemma join_rooted_rooted (els : list string) :
  exists rest, join_rooted els = String "/" rest.
Proof. destruct els as [| e els]; simpl; eauto. Qed.

(** A cleaned path starts with a slash. *)
Lemma cleanPath_rooted (p : string) : exists rest, cleanPath p = String "/" rest.
Proof.
  unfold cleanPath. destruct (p =? "")%string; [eauto |].
  set (p' := match p with String "/" _ => p | _ => ("/" ++ p)%string end).
  unfold Clean.
  destruct (join_rooted_rooted (rev (clean_elements (split_slash p' "") [])))
    as [rest Hrest].
  rewrite Hrest.
  destruct (ends_with_slash p' && negb (String "/" rest =? "/")%string);
    simpl; eauto.
Qed.

(** No path is redirected to a pattern of [main] by adding a slash. *)
Lemma shouldRedirect_routes (path : string) : shouldRedirect routes path = false.
Proof.
  unfold shouldRedirect.
  destruct (registered routes path); [reflexivity |].
  destruct (path =? "")%string eqn:He; [reflexivity |].
  apply String.eqb_neq in He.
  destruct (registered routes (path ++ "/")) as [e |] eqn:Hreg; [| reflexivity].
  exfalso. unfold registered, routes in Hreg. cbn [find pattern] in Hreg.
  destruct ("/" =? path ++ "/")%string eqn:H1.
  { apply String.eqb_eq in H1.
    destruct path as [| a path]; [now apply He |].
    destruct path; simpl in H1; congruence. }
  destruct ("/weather" =? path ++ "/")%string eqn:H2; [| discriminate].
  apply String.eqb_eq in H2. clear - H2.
  do 9 (destruct path as [| ? path]; simpl in H2; try congruence).
Qed.

(** The pattern [/] catches every rooted path but [/weather]. *)
Lemma handler_for_rooted (rest : string) :
  handler_for routes (String "/" rest) =
  if (String "/" rest =? "/weather")%string then handler else home.
Proof.
  unfold handler_for, mux_match, registered, routes. cbn [find pattern].
  destruct (String.eqb_spec "/" (String "/" rest)) as [H1 | H1].
  - rewrite <- H1. reflexivity.
  - rewrite (String.eqb_sym "/weather").
    destruct (String "/" rest =? "/weather")%string; [reflexivity |].
    cbn [longest_prefix pattern h].
    change (ends_with_slash "/weather") with false.
    change (ends_with_slash "/") with true.
    cbn. reflexivity.
Qed.

(** A path that is not rooted, which only a CONNECT request brings to the
    mux, matches no pattern. *)
Lemma handler_for_unrooted (W : World) (r : Request) (path : string) :
  HasPrefix path "/" = false ->
  handler_for routes path W r = http_NotFound.
Proof.
  intros Hp. unfold handler_for, mux_match, registered, routes.
  cbn [find pattern].
  destruct (String.eqb_spec "/" path) as [H1 | H1];
    [rewrite <- H1 in Hp; discriminate |].
  destruct (String.eqb_spec "/weather" path) as [H2 | H2];
    [rewrite <- H2 in Hp; discriminate |].
  cbn [longest_prefix pattern h]. rewrite Hp.
  change (ends_with_slash "/weather") with false.
  change (ends_with_slash "/") with true.
  cbn. reflexivity.
Qed.

(** What the server of [main] does with a request that is neither CONNECT
    nor for [*] and whose path is clean: it runs [handler] for [/weather] and
    [home] for any other path. *)
Lemma serve_clean (W : World) (r : Request) :
  RequestURI r <> "*" -> Method r <> "CONNECT" ->
  cleanPath (URL_Path r) = URL_Path r ->
  serve W r = if (URL_Path r =? "/weather")%string then handler W r else home W r.
Proof.
  intros Hstar Hconnect Hclean. unfold serve, ServeHTTP.
  apply String.eqb_neq in Hstar, Hconnect. rewrite Hstar, Hconnect.
  cbn [andb].
  rewrite shouldRedirect_routes, Hclean, String.eqb_refl. cbn [orb negb].
  destruct (cleanPath_rooted (URL_Path r)) as [rest Hrest].
  rewrite Hclean in Hrest. rewrite Hrest, handler_for_rooted.
  now destruct (String "/" rest =? "/weather")%string.
Qed.

End Routes.

(* ------------------------------------------------------------------ *)
(** * The statuses of the handlers *)

Lemma home_status (W : World) (r : Request) :
  exists w, home W r = Wrote w /\
            (StatusCode w = StatusOK \/ StatusCode w = StatusInternalServerError).
Proof.
  unfold home. destruct (ReadFile W "views/index.html");
    eexists; split; try reflexivity; simpl; auto.
Qed.

(** [handler] answers 404 to any path but [/weather]. *)
Lemma handler_other_path (W : World) (r : Request) :
  URL_Path r <> "/weather" -> handler W r = http_NotFound.
Proof.
  intros Hp. unfold handler. apply String.eqb_neq in Hp. now rewrite Hp.
Qed.

(** On [/weather] it answers 200 or 500, when it answers. *)
Lemma handler_weather_status (W : World) (r : Request) (w : Response) :
  URL_Path r = "/weather" -> handler W r = Wrote w ->
  StatusCode w = StatusOK \/ StatusCode w = StatusInternalServerError.
Proof.
  intros Hp. unfold handler. apply String.eqb_eq in Hp. rewrite Hp. simpl.
  unfold http_Error, Execute.
  repeat match goal with
         | |- context [match ?x with _ => _ end] => destruct x
         end;
    intros H; inversion H; subst; simpl; auto.
Qed.

(** Through the routes of [main], no such request is answered 404: the 404
    of [handler] is out of reach, and [home] has none. *)
Lemma serve_clean_never_NotFound (W : World) (r : Request) (w : Response) :
  RequestURI r <> "*" -> Method r <> "CONNECT" ->
  GoPath.cleanPath (URL_Path r) = URL_Path r ->
  serve W r = Wrote w -> StatusCode w <> StatusNotFound.
Proof.
  intros Hstar Hconnect Hclean Hw.
  rewrite (serve_clean W r Hstar Hconnect Hclean) in Hw.
  destruct (String.eqb_spec (URL_Path r) "/weather") as [Hp | Hp].
  - destruct (handler_weather_status W r w Hp Hw) as [-> | ->]; discriminate.
  - destruct (home_status W r) as (w' & Hh & Hs).
    rewrite Hh in Hw. inversion Hw; subst.
    destruct Hs as [-> | ->]; discriminate.
Qed.

(* ------------------------------------------------------------------ *)
(** * Members that the decoder does not find *)

Section MissingMembers.
Import Json Decode.

(** An object whose members for [time] are [null] leaves the destination
    without timestamps when it had none. *)
Lemma Hourly_members_no_time (ms : list (string * value)) :
  forall cur h,
    forallb (fun kv =>
      if key_is "time" (fst kv) then
        match snd kv with
        | Null => true
        | _ => false
        end
      else true) ms = true ->
    Time cur = [] ->
    Hourly_members ms cur = Some h ->
    Time h = [].
Proof.
  induction ms as [| [key v] rest IH]; intros cur h Hno Hcur Hdec; simpl in *.
  - inversion Hdec; subst. exact Hcur.
  - apply andb_true_iff in Hno. destruct Hno as [Hk Hrest].
    destruct (key_is "time" key).
    + destruct v; try discriminate. simpl in Hdec.
      now apply (IH _ _ Hrest) in Hdec.
    + destruct (key_is "temperature_2m" key).
      * destruct (into_slice into_float64 float64_zero v (Temperature2m cur));
          [| discriminate].
        now apply (IH _ _ Hrest) in Hdec.
      * now apply (IH _ _ Hrest) in Hdec.
Qed.

(** A value without a time series leaves the destination without
    timestamps when it had none. *)
Lemma WeatherResponse_members_no_time (ms : list (string * value)) :
  forall cur wr,
    without_time (Object ms) = true ->
    Time (Hourly cur) = [] ->
    WeatherResponse_members ms cur = Some wr ->
    Time (Hourly wr) = [].
Proof.
  induction ms as [| [key v] rest IH]; intros cur wr Hno Hcur Hdec; simpl in *.
  - inversion Hdec; subst. exact Hcur.
  - apply andb_true_iff in Hno. destruct Hno as [Hk Hrest].
    destruct (key_is "latitude" key).
    { destruct (into_float64 v (wr_Latitude cur)); [| discriminate].
      now apply (IH _ _ Hrest) in Hdec. }
    destruct (key_is "longitude" key).
    { destruct (into_float64 v (wr_Longitude cur)); [| discriminate].
      now apply (IH _ _ Hrest) in Hdec. }
    destruct (key_is "timezone" key).
    { destruct (into_string v (Timezone cur)); [| discriminate].
      now apply (IH _ _ Hrest) in Hdec. }
    destruct (key_is "hourly" key).
    + destruct (into_Hourly v (Hourly cur)) as [hd |] eqn:Hh; [| discriminate].
      apply (IH _ _ Hrest) in Hdec; [exact Hdec |]. simpl.
      destruct v; simpl in Hh, Hk; try discriminate.
      * now inversion Hh; subst.
      * now apply (Hourly_members_no_time members (Hourly cur)).
    + now apply (IH _ _ Hrest) in Hdec.
Qed.

Lemma into_WeatherResponse_without_time (v : value) (wr : WeatherResponse) :
  without_time v = true ->
  into_WeatherResponse v zero_WeatherResponse = Some wr ->
  Time (Hourly wr) = [].
Proof.
  intros Hno Hdec. destruct v; simpl in Hno, Hdec; try discriminate.
  - now inversion Hdec.
  - now apply (WeatherResponse_members_no_time members zero_WeatherResponse).
Qed.

(** ** What the decoder refuses

    The decoder stores a value exactly when it is of the kind of its
    destination, whatever the destination holds. *)
Lemma into_float64_stored (v : value) (cur : float64) :
  stored (into_float64 v cur) = float64_kind v.
Proof. destruct v; reflexivity. Qed.

Lemma into_int64_stored (v : value) (cur : Z) :
  stored (into_int64 v cur) = int64_kind v.
Proof. destruct v; reflexivity. Qed.

Lemma into_string_stored (v : value) (cur : string) :
  stored (into_string v cur) = string_kind v.
Proof. now destruct v. Qed.

Lemma into_slice_stored {A : Type} (into : value -> A -> option A) (zero : A)
  (kind : value -> bool) :
  (forall v cur, stored (into v cur) = kind v) ->
  forall v cur, stored (into_slice into zero v cur) = slice_kind kind v.
Proof.
  intros Hel v cur. destruct v; simpl; try reflexivity.
  revert cur. induction elements as [| e els IH]; intros cur; simpl.
  - reflexivity.
  - rewrite <- (Hel e (hd zero cur)).
    destruct (into e (hd zero cur)); simpl; [| reflexivity].
    rewrite <- (IH (tl cur)).
    now destruct (into_elements into zero els (tl cur)).
Qed.

Lemma Hourly_members_stored (ms : list (string * value)) :
  forall cur, stored (Hourly_members ms cur) = forallb Hourly_member_kind ms.
Proof.
  induction ms as [| [key v] rest IH]; intros cur; simpl; [reflexivity |].
  unfold Hourly_member_kind at 1. simpl.
  destruct (key_is "time" key).
  - rewrite <- (into_slice_stored into_int64 0 int64_kind into_int64_stored v (Time cur)).
    destruct (into_slice into_int64 0 v (Time cur)); simpl; [apply IH | reflexivity].
  - destruct (key_is "temperature_2m" key); [| apply IH].
    rewrite <- (into_slice_stored into_float64 float64_zero float64_kind
                  into_float64_stored v (Temperature2m cur)).
    destruct (into_slice into_float64 float64_zero v (Temperature2m cur)); simpl;
      [apply IH | reflexivity].
Qed.

Lemma into_Hourly_stored (v : value) (cur : HourlyData) :
  stored (into_Hourly v cur) = Hourly_kind v.
Proof. destruct v; simpl; try reflexivity. apply Hourly_members_stored. Qed.

Lemma WeatherResponse_members_stored (ms : list (string * value)) :
  forall cur,
    stored (WeatherResponse_members ms cur) = forallb WeatherResponse_member_kind ms.
Proof.
  induction ms as [| [key v] rest IH]; intros cur; simpl; [reflexivity |].
  unfold WeatherResponse_member_kind at 1. simpl.
  destruct (key_is "latitude" key).
  { rewrite <- (into_float64_stored v (wr_Latitude cur)).
    destruct (into_float64 v (wr_Latitude cur)); simpl; [apply IH | reflexivity]. }
  destruct (key_is "longitude" key).
  { rewrite <- (into_float64_stored v (wr_Longitude cur)).
    destruct (into_float64 v (wr_Longitude cur)); simpl; [apply IH | reflexivity]. }
  destruct (key_is "timezone" key).
  { rewrite <- (into_string_stored v (Timezone cur)).
    destruct (into_string v (Timezone cur)); simpl; [apply IH | reflexivity]. }
  destruct (key_is "hourly" key); [| apply IH].
  rewrite <- (into_Hourly_stored v (Hourly cur)).
  destruct (into_Hourly v (Hourly cur)); simpl; [apply IH | reflexivity].
Qed.

Lemma into_WeatherResponse_stored (v : value) (cur : WeatherResponse) :
  stored (into_WeatherResponse v cur) = WeatherResponse_kind v.
Proof.
  destruct v; simpl; try reflexivity. apply WeatherResponse_members_stored.
Qed.

End MissingMembers.

(** The errors of [getLatLong] never read as the message that [handler]
    answers for them. *)
Lemma getLatLong_error_text (W : World) (city : string) (e : error) :
  getLatLong W city = Err e -> Error W e <> "internal server error".
Proof.
  unfold getLatLong.
  destruct (http_Get W (geo_endpoint city)) as [err | resp].
  - intros H. inversion H. simpl. discriminate.
  - destruct (Decode.Decode_GeoResponse resp) as [err | response].
    + intros H. inversion H. simpl. discriminate.
    + destruct (List.length (Results response) <? 1)%nat.
      * intros H. inversion H. simpl. discriminate.
      * destruct (nth_error (Results response) 0); discriminate.
Qed.

Lemma nth_error_map_combine {A B C : Type} (f : A * B -> C) :
  forall (l1 : list A) (l2 : list B) (i : nat) (a : A) (b : B),
    nth_error l1 i = Some a -> nth_error l2 i = Some b ->
    nth_error (map f (combine l1 l2)) i = Some (f (a, b)).
Proof.
  induction l1 as [| x l1 IH]; intros l2 i a b H1 H2.
  - destruct i; discriminate.
  - destruct l2 as [| y l2]; [destruct i; discriminate |].
    destruct i as [| i]; simpl in *.
    + now inversion H1; inversion H2.
    + now apply IH.
Qed.

(* ------------------------------------------------------------------ *)
(** * The claims *)

(** C1. A payload that decodes to fewer temperatures than timestamps does
    not make [extractWeatherData] return an error: the loop indexes the
    temperatures out of range, and the function panics at the first index
    past them. *)
Theorem extractWeatherData_short_temperatures_panic
  (W : World) (city raw : string) (wr : WeatherResponse) :
  Decode.Unmarshal_WeatherResponse raw = inr wr ->
  (List.length (Temperature2m (Hourly wr)) < List.length (Time (Hourly wr)))%nat ->
  extractWeatherData W city raw =
  Panic (index_out_of_range (List.length (Temperature2m (Hourly wr)))
                            (List.length (Temperature2m (Hourly wr)))).
Proof.
  intros Hdec Hlen. unfold extractWeatherData. rewrite Hdec.
  now apply format_series_out_of_bounds.
Qed.

Lemma extractWeatherData_short_temperatures_panic_witness :
  extractWeatherData Sample.world "Paris" Sample.short_body =
  Panic (index_out_of_range 0 0).
Proof.
  apply (extractWeatherData_short_temperatures_panic Sample.world "Paris"
           Sample.short_body
           {| wr_Latitude := float64_zero; wr_Longitude := float64_zero;
              Timezone := "";
              Hourly := {| Time := [1700000000]; Temperature2m := [] |} |}).
  - vm_compute. reflexivity.
  - simpl. lia.
Defined.

(** C2. A GET request for [/bogus] is not answered 404: the pattern [/]
    catches it and [home] serves the landing page, with the status 200, or
    500 when the file cannot be read. *)
Theorem serve_bogus_is_landing_page (W : World) :
  serve W Sample.bogus = home W Sample.bogus /\
  exists w, serve W Sample.bogus = Wrote w /\
            (StatusCode w =? StatusNotFound) = false.
Proof.
  assert (H : serve W Sample.bogus = home W Sample.bogus) by reflexivity.
  split; [exact H |].
  rewrite H. destruct (home_status W Sample.bogus) as (w & Hw & Hs).
  exists w. split; [exact Hw |]. destruct Hs as [-> | ->]; reflexivity.
Qed.




(** C4, as stated, fails: when the weather service cannot be reached the
    body of the answer is the text of the error of [getWeather], not a
    generic message. *)
Lemma forecast_failure_shows_error_text :
  exists latLong err,
    getLatLong Sample.weather_down "Paris" = Ok latLong /\
    getWeather Sample.weather_down latLong = Err err /\
    Error Sample.weather_down err =
      "error making request to Weather API: connection refused" /\
    handler Sample.weather_down Sample.paris =
      http_Error "error making request to Weather API: connection refused"
        StatusInternalServerError.
Proof.
  eexists. eexists.
  split; [vm_compute; reflexivity |].
  split; [vm_compute; reflexivity |].
  split; vm_compute; reflexivity.
Qed.

(** C4, amended. On a [/weather] request whose form parses, a failure of
    [getLatLong] is answered 500 with the message ["internal server error"],
    which is not the text of the error; a failure of [getWeather] and a
    failure of [extractWeatherData] are answered 500 with the text of the
    error. *)
Theorem handler_failure_bodies (W : World) (r : Request) :
  URL_Path r = "/weather" ->
  ParseForm r = None ->
  (forall e,
     getLatLong W (FormValue r "city") = Err e ->
     handler W r = http_Error "internal server error" StatusInternalServerError /\
     Error W e <> "internal server error") /\
  (forall latLong e,
     getLatLong W (FormValue r "city") = Ok latLong ->
     getWeather W latLong = Err e ->
     handler W r = http_Error (Error W e) StatusInternalServerError) /\
  (forall latLong weather e,
     getLatLong W (FormValue r "city") = Ok latLong ->
     getWeather W latLong = Ok weather ->
     extractWeatherData W (FormValue r "city") weather = Err e ->
     handler W r = http_Error (Error W e) StatusInternalServerError).
Proof.
  intros Hp Hf. unfold handler.
  apply String.eqb_eq in Hp. rewrite Hp, Hf. simpl.
  split; [| split].
  - intros e H1. split.
    + now rewrite H1.
    + now apply getLatLong_error_text with (city := FormValue r "city").
  - intros latLong e H1 H2. now rewrite H1, H2.
  - intros latLong weather e H1 H2 H3. now rewrite H1, H2, H3.
Qed.

Lemma handler_failure_bodies_witness :
  handler Sample.geo_down Sample.paris =
    http_Error "internal server error" StatusInternalServerError /\
  handler Sample.weather_down Sample.paris =
    http_Error "error making request to Weather API: connection refused"
      StatusInternalServerError /\
  handler Sample.weather_garbled Sample.paris =
    http_Error "error decoding weather response: invalid character"
      StatusInternalServerError.
Proof.
  split; [| split].
  - destruct (handler_failure_bodies Sample.geo_down Sample.paris
                eq_refl eq_refl) as (Hgeo & _ & _).
    apply (Hgeo (fmt_Errorf "error making request to Geo API: "
                   (io_error "connection refused"))).
    vm_compute. reflexivity.
  - destruct (handler_failure_bodies Sample.weather_down Sample.paris
                eq_refl eq_refl) as (_ & Hweather & _).
    eapply (Hweather _ (fmt_Errorf "error making request to Weather API: "
                          (io_error "connection refused"))).
    + vm_compute. reflexivity.
    + vm_compute. reflexivity.
  - destruct (handler_failure_bodies Sample.weather_garbled Sample.paris
                eq_refl eq_refl) as (_ & _ & Hformat).
    eapply (Hformat _ _ (fmt_Errorf "error decoding weather response: "
                           (json_err SyntaxError))).
    + vm_compute. reflexivity.
    + vm_compute. reflexivity.
    + vm_compute. reflexivity.
Defined.

(** C5. For the timestamp 1700000000 and the temperature 12.3 the
    temperature label is not ["12.3"] followed by the degree sign and [C]:
    the bytes after the digits are C3 82 C2 B0 43, which read as a capital A
    with circumflex before the degree sign. *)
Theorem extractWeatherData_label_12_3 (W : World) :
  extractWeatherData W "Paris" Sample.weather_body =
    Ok {| City := "Paris";
          Forecasts :=
            [ {| Date := GoTime.Format_Mon_15_04 (zone W) (GoTime.Unix 1700000000);
                 Temperature := "12.3" ++ bytes [195; 130; 194; 176; 67] |} ] |} /\
  ("12.3" ++ bytes [195; 130; 194; 176; 67] =? label_12_3_degrees_C)%string = false.
Proof.
  split; [| vm_compute; reflexivity].
  unfold extractWeatherData.
  replace (Decode.Unmarshal_WeatherResponse Sample.weather_body)
    with (@inr error WeatherResponse
            {| wr_Latitude := float64_zero; wr_Longitude := float64_zero;
               Timezone := "";
               Hourly := {| Time := [1700000000];
                            Temperature2m :=
                              [S754_finite false 6924284427082138 (-49)] |} |})
    by (vm_compute; reflexivity).
  rewrite format_series_in_bounds by (simpl; lia).
  simpl. unfold forecast_of. simpl fst. simpl snd.
  replace (format_f 1 (S754_finite false 6924284427082138 (-49)) ++ temperature_suffix)%string
    with ("12.3" ++ bytes [195; 130; 194; 176; 67])%string
    by (vm_compute; reflexivity).
  reflexivity.
Qed.



(** C7. When the geocoding service answers and its answer decodes to an
    empty list of results, [getLatLong] returns the error
    ["no results found"] and no coordinate. *)
Theorem getLatLong_no_results
  (W : World) (city : string) (body : Body) (response : GeoResponse) :
  http_Get W (geo_endpoint city) = inr body ->
  Decode.Decode_GeoResponse body = inr response ->
  Results response = [] ->
  getLatLong W city = Err (errors_New "no results found").
Proof.
  intros Hget Hdec Hres. unfold getLatLong.
  rewrite Hget, Hdec, Hres. reflexivity.
Qed.

Lemma getLatLong_no_results_witness :
  getLatLong Sample.no_match "Paris" = Err (errors_New "no results found").
Proof.
  eapply (getLatLong_no_results Sample.no_match "Paris").
  - vm_compute. reflexivity.
  - vm_compute. reflexivity.
  - reflexivity.
Defined.

(** C8. A payload that decodes to [n] timestamps and [n] temperatures is
    formatted without error into [n] forecasts for the city, and the
    forecast at each index is made of the timestamp and of the temperature
    at that index. *)
Theorem extractWeatherData_equal_lengths
  (W : World) (city raw : string) (wr : WeatherResponse) (n : nat) :
  Decode.Unmarshal_WeatherResponse raw = inr wr ->
  List.length (Time (Hourly wr)) = n ->
  List.length (Temperature2m (Hourly wr)) = n ->
  exists forecasts,
    extractWeatherData W city raw = Ok {| City := city; Forecasts := forecasts |} /\
    List.length forecasts = n /\
    forall i t temp,
      nth_error (Time (Hourly wr)) i = Some t ->
      nth_error (Temperature2m (Hourly wr)) i = Some temp ->
      nth_error forecasts i =
      Some {| Date := GoTime.Format_Mon_15_04 (zone W) (GoTime.Unix t);
              Temperature := format_f 1 temp ++ temperature_suffix |}.
Proof.
  intros Hdec Htimes Htemps.
  exists (map (fun p => forecast_of W (fst p) (snd p))
            (combine (Time (Hourly wr)) (Temperature2m (Hourly wr)))).
  split; [| split].
  - unfold extractWeatherData. rewrite Hdec.
    apply format_series_in_bounds. lia.
  - rewrite length_map, length_combine. lia.
  - intros i t temp Ht Htemp.
    now rewrite (nth_error_map_combine _ _ _ i t temp Ht Htemp).
Qed.

Lemma extractWeatherData_equal_lengths_witness :
  exists forecasts,
    extractWeatherData Sample.world "Paris"
      (with_quotes "{'hourly':{'time':[1700000000,1700003600],'temperature_2m':[12.3,-0.04]}}")
    = Ok {| City := "Paris"; Forecasts := forecasts |} /\
    List.length forecasts = 2%nat /\
    nth_error forecasts 1 =
    Some {| Date := "Tue 23:13";
            Temperature := "-0.0" ++ bytes [195; 130; 194; 176; 67] |}.
Proof.
  destruct (extractWeatherData_equal_lengths Sample.world "Paris"
              (with_quotes "{'hourly':{'time':[1700000000,1700003600],'temperature_2m':[12.3,-0.04]}}")
              {| wr_Latitude := float64_zero; wr_Longitude := float64_zero;
                 Timezone := "";
                 Hourly := {| Time := [1700000000; 1700003600];
                              Temperature2m :=
                                [S754_finite false 6924284427082138 (-49);
                                 S754_finite true 5764607523034235 (-57)] |} |}
              2%nat)
    as (forecasts & Hok & Hlen & Hnth).
  - vm_compute. reflexivity.
  - reflexivity.
  - reflexivity.
  - exists forecasts. split; [exact Hok |]. split; [exact Hlen |].
    rewrite (Hnth 1%nat 1700003600 (S754_finite true 5764607523034235 (-57))
               eq_refl eq_refl).
    vm_compute. reflexivity.
Defined.

(** C9. A payload that decodes to no timestamp is formatted without error:
    the result has the city and no forecast. *)
Theorem extractWeatherData_no_timestamp
  (W : World) (city raw : string) (wr : WeatherResponse) :
  Decode.Unmarshal_WeatherResponse raw = inr wr ->
  Time (Hourly wr) = [] ->
  extractWeatherData W city raw = Ok {| City := city; Forecasts := [] |}.
Proof.
  intros Hdec Hempty. unfold extractWeatherData. rewrite Hdec.
  rewrite format_series_in_bounds; rewrite Hempty.
  - reflexivity.
  - simpl. lia.
Qed.

Lemma extractWeatherData_no_timestamp_witness :
  extractWeatherData Sample.world "Paris"
    (with_quotes "{'hourly':{'time':[],'temperature_2m':[]}}")
  = Ok {| City := "Paris"; Forecasts := [] |}.
Proof.
  eapply (extractWeatherData_no_timestamp Sample.world "Paris").
  - vm_compute. reflexivity.
  - reflexivity.
Defined.

(** C10. When the template of the results cannot be parsed while the three
    steps before it succeed, [handler] writes no response, with an error
    status or otherwise: it calls [Execute] on the nil template and panics
    on the nil pointer. *)
Theorem handler_nil_template
  (W : World) (r : Request) (e : error) (latLong : LatLong) (weather : string)
  (display : WeatherDisplay) :
  URL_Path r = "/weather" ->
  ParseForm r = None ->
  getLatLong W (FormValue r "city") = Ok latLong ->
  getWeather W latLong = Ok weather ->
  extractWeatherData W (FormValue r "city") weather = Ok display ->
  ParseFiles W "views/weather.html" = inl e ->
  handler W r = Crashed nil_pointer_dereference.
Proof.
  intros Hp Hf Hgeo Hweather Hformat Htmpl. unfold handler.
  apply String.eqb_eq in Hp.
  rewrite Hp, Hf. simpl. rewrite Hgeo, Hweather, Hformat, Htmpl.
  reflexivity.
Qed.

Lemma handler_nil_template_witness :
  handler Sample.no_template Sample.paris = Crashed nil_pointer_dereference.
Proof.
  eapply (handler_nil_template Sample.no_template Sample.paris).
  - reflexivity.
  - reflexivity.
  - vm_compute. reflexivity.
  - vm_compute. reflexivity.
  - vm_compute. reflexivity.
  - reflexivity.
Defined.

(* ------------------------------------------------------------------ *)
(** * The library models on known values *)

Example ParseFloat_12_3 :
  ParseFloat "12.3" = Some (S754_finite false 6924284427082138 (-49)).
Proof. vm_compute. reflexivity. Qed.

Example ParseFloat_overflow : ParseFloat "1e309" = None.
Proof. vm_compute. reflexivity. Qed.

Example ParseInt_fraction : ParseInt "1700000000.0" = None.
Proof. vm_compute. reflexivity. Qed.

Example format_f_ties_to_even :
  option_map (format_f 1) (ParseFloat "0.25") = Some "0.2" /\
  option_map (format_f 1) (ParseFloat "0.75") = Some "0.8" /\
  option_map (format_f 0) (ParseFloat "2.5") = Some "2".
Proof. repeat split; vm_compute; reflexivity. Qed.

Example format_f_exact_digits :
  option_map (format_f 1) (ParseFloat "1e23") = Some "99999999999999991611392.0".
Proof. vm_compute. reflexivity. Qed.

Example format_f_negative_zero :
  option_map (format_f 1) (ParseFloat "-0.04") = Some "-0.0".
Proof. vm_compute. reflexivity. Qed.

Example QueryEscape_city : Url.QueryEscape "New York/NY" = "New+York%2FNY".
Proof. vm_compute. reflexivity. Qed.

Example cleanPath_values :
  map GoPath.cleanPath [""; "weather"; "//weather"; "/a/./b/../c/"; "/../x"; "/bogus"]
  = ["/"; "/weather"; "/weather"; "/a/c/"; "/x"; "/bogus"].
Proof. vm_compute. reflexivity. Qed.

Example Format_Mon_15_04_utc :
  GoTime.Format_Mon_15_04 (fun _ => 0) (GoTime.Unix 1700000000) = "Tue 22:13" /\
  GoTime.Format_Mon_15_04 (fun _ => 3600) (GoTime.Unix 0) = "Thu 01:00" /\
  GoTime.Format_Mon_15_04 (fun _ => -3600) (GoTime.Unix 0) = "Wed 23:00".
Proof. repeat split; vm_compute; reflexivity. Qed.

Example key_is_folds :
  Json.key_is "hourly" "HOURLY" = true /\
  Json.key_is "results" (bytes [114; 101; 197; 191; 117; 108; 116; 115]) = true /\
  Json.key_is "time" "times" = false.
Proof. repeat split; vm_compute; reflexivity. Qed.

Example first_value_stream :
  Json.first_value (with_quotes "{'a':[1,2.5e3,null]} trailing")
  = Json.Got (Json.Object [("a", Json.Array [Json.Number "1"; Json.Number "2.5e3"; Json.Null])])
             " trailing" /\
  Json.first_value (with_quotes "{'a':[1,") = Json.Short /\
  Json.first_value (with_quotes "{'a':[1,]}") = Json.Bad.
Proof. repeat split; vm_compute; reflexivity. Qed.

(** [Decode] stops after the first value: a byte that cannot follow it is
    not looked at, where [Unmarshal] refuses the text. *)
Example Decode_stops_after_first_value :
  Decode.Decode_GeoResponse (Sample.whole "nullx") = inr zero_GeoResponse /\
  Decode.Decode_GeoResponse (Sample.whole "12x") = inl (json_err UnmarshalTypeError) /\
  Decode.Decode_GeoResponse (Sample.whole "-x") = inl (json_err SyntaxError) /\
  Decode.Unmarshal_WeatherResponse "nullx" = inl (json_err SyntaxError).
Proof. repeat split; vm_compute; reflexivity. Qed.

(** In the sample world a path that is not clean is redirected. *)
Example serve_unclean_path :
  serve Sample.world (Sample.get "//weather" "Paris") =
  Moved StatusTemporaryRedirect "/weather".
Proof. vm_compute. reflexivity. Qed.

Example serve_paris :
  serve Sample.world Sample.paris =
  Wrote {| StatusCode := StatusOK; Header := [];
           ResponseBody := "Paris:Tue 22:13=12.3" ++ bytes [195; 130; 194; 176; 67] |}.
Proof. vm_compute. reflexivity. Qed.

(* ------------------------------------------------------------------ *)
(** * Further properties of getLatLong and getWeather *)

(** X1. [getLatLong] never panics: the index 0 is read only from a list of
    at least one result. *)
Theorem getLatLong_never_panics (W : World) (city : string) :
  (exists first, getLatLong W city = Ok first) \/
  (exists e, getLatLong W city = Err e).
Proof.
  unfold getLatLong.
  destruct (http_Get W (geo_endpoint city)) as [err | resp]; [right; eauto |].
  destruct (Decode.Decode_GeoResponse resp) as [err | response];
    [right; eauto |].
  destruct (Results response) as [| first others]; simpl.
  - right. eauto.
  - left. eauto.
Qed.

(** X2. A coordinate that [getLatLong] returns is the first result of the
    decoded answer of the geocoding service for the escaped city. *)
Theorem getLatLong_Ok_is_first_result (W : World) (city : string) (first : LatLong) :
  getLatLong W city = Ok first ->
  exists body response others,
    http_Get W (geo_endpoint city) = inr body /\
    Decode.Decode_GeoResponse body = inr response /\
    Results response = first :: others.
Proof.
  unfold getLatLong.
  destruct (http_Get W (geo_endpoint city)) as [err | resp] eqn:Hget;
    [discriminate |].
  destruct (Decode.Decode_GeoResponse resp) as [err | response] eqn:Hdec;
    [discriminate |].
  destruct (Results response) as [| r others] eqn:Hres; simpl; [discriminate |].
  intros H. inversion H; subst. exists resp, response, others. auto.
Qed.

Lemma getLatLong_Ok_is_first_result_witness :
  exists body response others,
    http_Get Sample.world (geo_endpoint "Paris") = inr body /\
    Decode.Decode_GeoResponse body = inr response /\
    Results response = paris_latLong :: others.
Proof.
  apply (getLatLong_Ok_is_first_result Sample.world "Paris" paris_latLong).
  vm_compute. reflexivity.
Defined.

(** X3. [getWeather] never panics, and what it returns is the body of the
    answer of the weather service as it is, whatever it holds: an error comes
    only from the transport or from reading the body. *)
Theorem getWeather_returns_body (W : World) (latLong : LatLong) (weather : string) :
  getWeather W latLong = Ok weather <->
  exists body,
    http_Get W (weather_endpoint latLong) = inr body /\
    read_err body = None /\ data body = weather.
Proof.
  unfold getWeather. split.
  - destruct (http_Get W (weather_endpoint latLong)) as [err | body] eqn:Hget;
      [discriminate |].
    destruct (read_err body) eqn:Hread; [discriminate |].
    intros H. inversion H. exists body. auto.
  - intros (body & Hget & Hread & Hdata). now rewrite Hget, Hread, Hdata.
Qed.

(* ------------------------------------------------------------------ *)
(** * Further properties of extractWeatherData *)

(** X4. [extractWeatherData] returns an error exactly when the decoding
    fails, and the error is the one of the decoder under the prefix
    ["error decoding weather response: "]. *)
Theorem extractWeatherData_Err_iff (W : World) (city raw : string) (e : error) :
  extractWeatherData W city raw = Err e <->
  exists cause,
    Decode.Unmarshal_WeatherResponse raw = inl cause /\
    e = fmt_Errorf "error decoding weather response: " cause.
Proof.
  unfold extractWeatherData.
  destruct (Decode.Unmarshal_WeatherResponse raw) as [cause | wr]; split.
  - intros H. inversion H. now exists cause.
  - intros (cause' & Hc & He). inversion Hc. now subst.
  - intros H.
    destruct (Nat.le_gt_cases (List.length (Time (Hourly wr)))
                (List.length (Temperature2m (Hourly wr)))) as [Hl | Hl].
    + rewrite format_series_in_bounds in H by exact Hl. discriminate.
    + rewrite format_series_out_of_bounds in H by exact Hl. discriminate.
  - intros (cause & Hc & _). discriminate.
Qed.

(** X5. [extractWeatherData] panics exactly when the payload decodes to
    fewer temperatures than timestamps, and then at the index that is the
    number of temperatures. *)
Theorem extractWeatherData_Panic_iff (W : World) (city raw : string) (p : panic) :
  extractWeatherData W city raw = Panic p <->
  exists wr,
    Decode.Unmarshal_WeatherResponse raw = inr wr /\
    (List.length (Temperature2m (Hourly wr)) < List.length (Time (Hourly wr)))%nat /\
    p = index_out_of_range (List.length (Temperature2m (Hourly wr)))
                           (List.length (Temperature2m (Hourly wr))).
Proof.
  unfold extractWeatherData.
  destruct (Decode.Unmarshal_WeatherResponse raw) as [cause | wr]; split.
  - discriminate.
  - intros (wr & Hc & _). discriminate.
  - intros H.
    destruct (Nat.le_gt_cases (List.length (Time (Hourly wr)))
                (List.length (Temperature2m (Hourly wr)))) as [Hl | Hl].
    + rewrite format_series_in_bounds in H by exact Hl. discriminate.
    + rewrite format_series_out_of_bounds in H by exact Hl.
      inversion H. exists wr. auto.
  - intros (wr' & Hc & Hl & Hp). inversion Hc; subst wr'. subst p.
    now apply format_series_out_of_bounds.
Qed.

(** X6. Temperatures past the last timestamp are dropped without a word: a
    payload that decodes to at least as many temperatures as timestamps is
    formatted into one forecast for each timestamp, in order, each from the
    temperature at the same index. *)
Theorem extractWeatherData_surplus_temperatures
  (W : World) (city raw : string) (wr : WeatherResponse) :
  Decode.Unmarshal_WeatherResponse raw = inr wr ->
  (List.length (Time (Hourly wr)) <= List.length (Temperature2m (Hourly wr)))%nat ->
  exists forecasts,
    extractWeatherData W city raw = Ok {| City := city; Forecasts := forecasts |} /\
    List.length forecasts = List.length (Time (Hourly wr)) /\
    forall i t,
      nth_error (Time (Hourly wr)) i = Some t ->
      exists temp,
        nth_error (Temperature2m (Hourly wr)) i = Some temp /\
        nth_error forecasts i = Some (forecast_of W t temp).
Proof.
  intros Hdec Hlen.
  exists (map (fun p => forecast_of W (fst p) (snd p))
            (combine (Time (Hourly wr)) (Temperature2m (Hourly wr)))).
  split; [| split].
  - unfold extractWeatherData. rewrite Hdec.
    now apply format_series_in_bounds.
  - rewrite length_map, length_combine. lia.
  - intros i t Ht.
    assert (Hi : (i < List.length (Temperature2m (Hourly wr)))%nat).
    { assert (i < List.length (Time (Hourly wr)))%nat
        by (apply nth_error_Some; congruence).
      lia. }
    destruct (nth_error (Temperature2m (Hourly wr)) i) as [temp |] eqn:Htemp.
    + exists temp. split; [reflexivity |].
      now rewrite (nth_error_map_combine _ _ _ i t temp Ht Htemp).
    + apply nth_error_None in Htemp. lia.
Qed.

Lemma extractWeatherData_surplus_temperatures_witness :
  exists forecasts,
    extractWeatherData Sample.world "Paris"
      (with_quotes "{'hourly':{'time':[1700000000],'temperature_2m':[12.3,-0.04,7]}}")
    = Ok {| City := "Paris"; Forecasts := forecasts |} /\
    List.length forecasts = 1%nat.
Proof.
  destruct (extractWeatherData_surplus_temperatures Sample.world "Paris"
              (with_quotes "{'hourly':{'time':[1700000000],'temperature_2m':[12.3,-0.04,7]}}")
              {| wr_Latitude := float64_zero; wr_Longitude := float64_zero;
                 Timezone := "";
                 Hourly := {| Time := [1700000000];
                              Temperature2m :=
                                [S754_finite false 6924284427082138 (-49);
                                 S754_finite true 5764607523034235 (-57);
                                 S754_finite false 7881299347898368 (-50)] |} |})
    as (forecasts & Hok & Hlen & _).
  - vm_compute. reflexivity.
  - simpl. lia.
  - exists forecasts. split; [exact Hok | exact Hlen].
Defined.

(* ------------------------------------------------------------------ *)
(** * Further properties of handler, home and the routes *)

Lemma getLatLong_not_Panic (W : World) (city : string) (p : panic) :
  getLatLong W city <> Panic p.
Proof.
  unfold getLatLong.
  destruct (http_Get W (geo_endpoint city)) as [err | resp]; [discriminate |].
  destruct (Decode.Decode_GeoResponse resp) as [err | response];
    [discriminate |].
  destruct (Results response) as [| first others]; simpl; discriminate.
Qed.

Lemma getWeather_not_Panic (W : World) (latLong : LatLong) (p : panic) :
  getWeather W latLong <> Panic p.
Proof.
  unfold getWeather.
  destruct (http_Get W (weather_endpoint latLong)) as [err | body];
    [discriminate |].
  destruct (read_err body); discriminate.
Qed.

(** The display that [extractWeatherData] returns is for the city it was
    given. *)
Lemma extractWeatherData_Ok_City (W : World) (city raw : string) (d : WeatherDisplay) :
  extractWeatherData W city raw = Ok d -> City d = city.
Proof.
  unfold extractWeatherData, format_series.
  destruct (Decode.Unmarshal_WeatherResponse raw) as [cause | wr];
    [discriminate |].
  destruct (range_Time W (Temperature2m (Hourly wr)) 0 (Time (Hourly wr)) []);
    try discriminate.
  intros H. now inversion H.
Qed.

Lemma extractWeatherData_Panic_short (W : World) (city raw : string) (p : panic) :
  extractWeatherData W city raw = Panic p ->
  exists wr,
    Decode.Unmarshal_WeatherResponse raw = inr wr /\
    (List.length (Temperature2m (Hourly wr)) < List.length (Time (Hourly wr)))%nat.
Proof.
  unfold extractWeatherData.
  destruct (Decode.Unmarshal_WeatherResponse raw) as [cause | wr];
    [discriminate |].
  intros H.
  destruct (Nat.le_gt_cases (List.length (Time (Hourly wr)))
              (List.length (Temperature2m (Hourly wr)))) as [Hl | Hl].
  - rewrite format_series_in_bounds in H by exact Hl. discriminate.
  - exists wr. auto.
Qed.

(** X7. An answer 200 of [handler] is always a rendered forecast: the path
    is [/weather], the form was parsed, the three steps succeeded on the
    parameter [city], the template was parsed, the body is what the template
    writes for the display of that city, and [handler] set no header. *)
Theorem handler_OK_is_rendered_forecast (W : World) (r : Request) (w : Response) :
  handler W r = Wrote w ->
  StatusCode w = StatusOK ->
  exists latLong weather forecasts tmpl,
    URL_Path r = "/weather" /\
    ParseForm r = None /\
    getLatLong W (FormValue r "city") = Ok latLong /\
    getWeather W latLong = Ok weather /\
    extractWeatherData W (FormValue r "city") weather =
      Ok {| City := FormValue r "city"; Forecasts := forecasts |} /\
    ParseFiles W "views/weather.html" = inr tmpl /\
    w = {| StatusCode := StatusOK; Header := [];
           ResponseBody :=
             tmpl {| City := FormValue r "city"; Forecasts := forecasts |} |}.
Proof.
  unfold handler.
  destruct (String.eqb_spec (URL_Path r) "/weather") as [Hp | Hp]; simpl.
  2:{ intros H Hs. inversion H; subst. discriminate. }
  destruct (ParseForm r) eqn:Hform.
  { intros H Hs. inversion H; subst. discriminate. }
  destruct (getLatLong W (FormValue r "city")) as [latLong | e | p] eqn:Hgeo;
    try (intros H Hs; inversion H; subst; discriminate).
  destruct (getWeather W latLong) as [weather | e | p] eqn:Hweather;
    try (intros H Hs; inversion H; subst; discriminate).
  destruct (extractWeatherData W (FormValue r "city") weather)
    as [display | e | p] eqn:Hformat;
    try (intros H Hs; inversion H; subst; discriminate).
  destruct (ParseFiles W "views/weather.html") as [e | tmpl] eqn:Htmpl; simpl;
    [discriminate |].
  intros H _. inversion H; subst. clear H.
  pose proof (extractWeatherData_Ok_City _ _ _ _ Hformat) as Hcity.
  destruct display as [c forecasts]. simpl in Hcity. subst c.
  exists latLong, weather, forecasts, tmpl. auto 10.
Qed.

Lemma handler_OK_is_rendered_forecast_witness :
  exists latLong weather forecasts tmpl,
    URL_Path Sample.paris = "/weather" /\
    ParseForm Sample.paris = None /\
    getLatLong Sample.world (FormValue Sample.paris "city") = Ok latLong /\
    getWeather Sample.world latLong = Ok weather /\
    extractWeatherData Sample.world (FormValue Sample.paris "city") weather =
      Ok {| City := FormValue Sample.paris "city"; Forecasts := forecasts |} /\
    ParseFiles Sample.world "views/weather.html" = inr tmpl /\
    {| StatusCode := StatusOK; Header := [];
       ResponseBody := "Paris:Tue 22:13=12.3" ++ bytes [195; 130; 194; 176; 67] |} =
    {| StatusCode := StatusOK; Header := [];
       ResponseBody :=
         tmpl {| City := FormValue Sample.paris "city"; Forecasts := forecasts |} |}.
Proof.
  apply (handler_OK_is_rendered_forecast Sample.world Sample.paris
           {| StatusCode := StatusOK; Header := [];
              ResponseBody := "Paris:Tue 22:13=12.3" ++ bytes [195; 130; 194; 176; 67] |}).
  - vm_compute. reflexivity.
  - reflexivity.
Defined.

(** X8. [handler] panics in two cases only: the weather service sent fewer
    temperatures than timestamps, or every step succeeded and the template
    could not be parsed. *)
Theorem handler_Crashed_cases (W : World) (r : Request) (p : panic) :
  handler W r = Crashed p ->
  exists latLong weather,
    getLatLong W (FormValue r "city") = Ok latLong /\
    getWeather W latLong = Ok weather /\
    ((exists wr,
        Decode.Unmarshal_WeatherResponse weather = inr wr /\
        (List.length (Temperature2m (Hourly wr)) < List.length (Time (Hourly wr)))%nat /\
        extractWeatherData W (FormValue r "city") weather = Panic p) \/
     (exists display e,
        extractWeatherData W (FormValue r "city") weather = Ok display /\
        ParseFiles W "views/weather.html" = inl e /\
        p = nil_pointer_dereference)).
Proof.
  unfold handler.
  destruct (negb (URL_Path r =? "/weather")%string); [discriminate |].
  destruct (ParseForm r); [discriminate |].
  destruct (getLatLong W (FormValue r "city")) as [latLong | e | q] eqn:Hgeo;
    [| discriminate | now destruct (getLatLong_not_Panic W (FormValue r "city") q)].
  destruct (getWeather W latLong) as [weather | e | q] eqn:Hweather;
    [| discriminate | now destruct (getWeather_not_Panic W latLong q)].
  destruct (extractWeatherData W (FormValue r "city") weather)
    as [display | e | q] eqn:Hformat; [| discriminate |].
  - destruct (ParseFiles W "views/weather.html") as [e | tmpl] eqn:Htmpl; simpl;
      [| discriminate].
    intros H. inversion H.
    exists latLong, weather. repeat split; try assumption.
    right. exists display, e. auto.
  - intros H. inversion H; subst q.
    destruct (extractWeatherData_Panic_short _ _ _ _ Hformat) as (wr & Hdec & Hlen).
    exists latLong, weather. repeat split; try assumption.
    left. exists wr. auto.
Qed.

Lemma handler_Crashed_cases_witness :
  exists latLong weather,
    getLatLong Sample.no_template (FormValue Sample.paris "city") = Ok latLong /\
    getWeather Sample.no_template latLong = Ok weather /\
    ((exists wr,
        Decode.Unmarshal_WeatherResponse weather = inr wr /\
        (List.length (Temperature2m (Hourly wr)) < List.length (Time (Hourly wr)))%nat /\
        extractWeatherData Sample.no_template (FormValue Sample.paris "city") weather
        = Panic nil_pointer_dereference) \/
     (exists display e,
        extractWeatherData Sample.no_template (FormValue Sample.paris "city") weather
        = Ok display /\
        ParseFiles Sample.no_template "views/weather.html" = inl e /\
        nil_pointer_dereference = nil_pointer_dereference)).
Proof.
  apply (handler_Crashed_cases Sample.no_template Sample.paris nil_pointer_dereference).
  vm_compute. reflexivity.
Defined.

(** X9. Called on its own, [handler] answers ["404 page not found"] exactly
    for the paths other than [/weather]. *)
Theorem handler_NotFound_iff (W : World) (r : Request) :
  handler W r = http_NotFound <-> URL_Path r <> "/weather".
Proof.
  split.
  - intros H Hp.
    assert (Hw : handler W r = Wrote {| StatusCode := StatusNotFound;
                   Header := [("Content-Type", "text/plain; charset=utf-8");
                              ("X-Content-Type-Options", "nosniff")];
                   ResponseBody := "404 page not found" ++ bytes [10] |})
      by exact H.
    destruct (handler_weather_status W r _ Hp Hw); discriminate.
  - apply handler_other_path.
Qed.

(** X10. What the server of [main] does with a request that is neither
    CONNECT nor for [*] and whose path is clean: it runs [handler] when the
    path is [/weather] and [home] for every other path. It never answers
    404: the not-found branch of [handler] is out of reach through the
    routes. *)
Theorem serve_dispatch (W : World) (r : Request) :
  RequestURI r <> "*" ->
  Method r <> "CONNECT" ->
  GoPath.cleanPath (URL_Path r) = URL_Path r ->
  ((URL_Path r = "/weather" /\ serve W r = handler W r) \/
   (URL_Path r <> "/weather" /\ serve W r = home W r)) /\
  (forall w, serve W r = Wrote w -> (StatusCode w =? StatusNotFound) = false).
Proof.
  intros Hstar Hconnect Hclean. split.
  - rewrite (serve_clean W r Hstar Hconnect Hclean).
    destruct (String.eqb_spec (URL_Path r) "/weather") as [Hp | Hp]; auto.
  - intros w Hw. apply Z.eqb_neq.
    now apply (serve_clean_never_NotFound W r w).
Qed.

Lemma serve_dispatch_witness :
  (("/weather" = "/weather" /\
    serve Sample.world Sample.paris = handler Sample.world Sample.paris) \/
   ("/weather" <> "/weather" /\
    serve Sample.world Sample.paris = home Sample.world Sample.paris)) /\
  (forall w, serve Sample.world Sample.paris = Wrote w ->
             (StatusCode w =? StatusNotFound) = false).
Proof.
  apply (serve_dispatch Sample.world Sample.paris).
  - vm_compute. discriminate.
  - vm_compute. discriminate.
  - vm_compute. reflexivity.
Defined.

(** X11. Every such request with a clean path other than [/weather] gets
    the landing page: the file [views/index.html] as it is, as [text/html],
    or the answer 500 ["failed to open file"] when the file cannot be read.
    Nothing else of the request matters. *)
Theorem serve_landing_page (W : World) (r : Request) :
  RequestURI r <> "*" ->
  Method r <> "CONNECT" ->
  GoPath.cleanPath (URL_Path r) = URL_Path r ->
  URL_Path r <> "/weather" ->
  serve W r =
  match ReadFile W "views/index.html" with
  | inr file =>
      Wrote {| StatusCode := StatusOK; Header := [("Content-Type", "text/html")];
               ResponseBody := file |}
  | inl _ => http_Error "failed to open file" StatusInternalServerError
  end.
Proof.
  intros Hstar Hconnect Hclean Hp.
  rewrite (serve_clean W r Hstar Hconnect Hclean).
  apply String.eqb_neq in Hp. rewrite Hp. unfold home.
  destruct (ReadFile W "views/index.html"); reflexivity.
Qed.

Lemma serve_landing_page_witness :
  serve Sample.world (Sample.get "/any/other/path" "Paris") =
  Wrote {| StatusCode := StatusOK; Header := [("Content-Type", "text/html")];
           ResponseBody := "<html></html>" |}.
Proof.
  apply (serve_landing_page Sample.world (Sample.get "/any/other/path" "Paris")).
  - vm_compute. discriminate.
  - vm_compute. discriminate.
  - vm_compute. reflexivity.
  - vm_compute. discriminate.
Defined.

(* ------------------------------------------------------------------ *)
(** * Text after the first JSON value *)

Section Trailing.
Import Json Decode.

(** A value that is not a number ends at one of its own bytes: the text
    after it plays no part in the scan. *)
Lemma run_append (s : string) :
  forall (st : state) (stack : list frame) (v : value) (rest tail : string),
    run st stack s = Got v rest ->
    (forall lit, v <> Number lit) ->
    run st stack (s ++ tail) = Got v (rest ++ tail).
Proof.
  induction s as [| c s IH]; intros st stack v rest tail Hrun Hv.
  - simpl in Hrun. destruct st; try discriminate.
    destruct stack; [| discriminate].
    destruct (number_complete n); [| discriminate].
    inversion Hrun; subst. now destruct (Hv literal).
  - simpl in *. destruct (step st stack c) as [st' stack' | v' [|] |].
    + now apply IH.
    + now inversion Hrun.
    + now inversion Hrun.
    + discriminate.
Qed.

Lemma skip_space_blank_append (rest tail : string) :
  is_blank rest = true -> skip_space (rest ++ tail) = skip_space tail.
Proof.
  unfold is_blank. induction rest as [| c rest IH]; intros H; simpl in *.
  - reflexivity.
  - destruct (is_space c); [now apply IH | discriminate].
Qed.

Lemma is_blank_append (rest tail : string) :
  is_blank rest = true -> is_blank (rest ++ tail) = is_blank tail.
Proof.
  intros H. unfold is_blank. now rewrite skip_space_blank_append.
Qed.

(** The decoder of [Unmarshal] stores nulls and objects only. *)
Lemma into_WeatherResponse_kind (v : value) (cur wr : WeatherResponse) :
  into_WeatherResponse v cur = Some wr -> forall lit, v <> Number lit.
Proof. destruct v; simpl; intros H lit; discriminate. Qed.

Lemma Unmarshal_WeatherResponse_inr (raw : string) (wr : WeatherResponse) :
  Unmarshal_WeatherResponse raw = inr wr ->
  exists v rest,
    first_value raw = Got v rest /\ is_blank rest = true /\
    into_WeatherResponse v zero_WeatherResponse = Some wr.
Proof.
  unfold Unmarshal_WeatherResponse.
  destruct (first_value raw) as [v rest | |]; try discriminate.
  destruct (is_blank rest) eqn:Hb; [| discriminate].
  destruct (into_WeatherResponse v zero_WeatherResponse) as [w |] eqn:Hd;
    [| discriminate].
  intros H. inversion H; subst. eauto.
Qed.

Lemma Unmarshal_WeatherResponse_append (raw tail : string) (wr : WeatherResponse) :
  Unmarshal_WeatherResponse raw = inr wr ->
  Unmarshal_WeatherResponse (raw ++ tail) =
  if is_blank tail then inr wr else inl (json_err SyntaxError).
Proof.
  intros H.
  destruct (Unmarshal_WeatherResponse_inr raw wr H) as (v & rest & Hs & Hb & Hd).
  unfold Unmarshal_WeatherResponse, first_value in *.
  rewrite (run_append raw _ _ v rest tail Hs (into_WeatherResponse_kind _ _ _ Hd)).
  rewrite (is_blank_append rest tail Hb), Hd. reflexivity.
Qed.

(** A body that [Decode] turns into at least one result starts with an
    object. *)
Lemma Decode_GeoResponse_results (body : Body) (response : GeoResponse)
  (first : LatLong) (others : list LatLong) :
  Decode_GeoResponse body = inr response ->
  Results response = first :: others ->
  exists ms rest,
    first_value (data body) = Got (Object ms) rest /\
    into_GeoResponse (Object ms) zero_GeoResponse = Some response.
Proof.
  intros Hdec Hres. unfold Decode_GeoResponse in Hdec.
  destruct (first_value (data body)) as [v rest | |] eqn:Hs.
  - destruct v; simpl in Hdec;
      try (destruct rest as [| c rest'];
           [destruct (read_err body) | destruct (is_space c)];
           try discriminate; inversion Hdec; subst; discriminate);
      try discriminate.
    destruct (GeoResponse_members members zero_GeoResponse) as [g |] eqn:Hg;
      [| discriminate].
    inversion Hdec; subst. exists members, rest. split; [reflexivity | exact Hg].
  - destruct (read_err body); [discriminate |].
    destruct (is_blank (data body)); discriminate.
  - discriminate.
Qed.

(** Text after the first value does not change what [Decode] finds in a
    body that starts with an object. *)
Lemma Decode_GeoResponse_append (body : Body) (response : GeoResponse)
  (first : LatLong) (others : list LatLong) (tail : string) (e : option error) :
  Decode_GeoResponse body = inr response ->
  Results response = first :: others ->
  Decode_GeoResponse {| data := data body ++ tail; read_err := e |} = inr response.
Proof.
  intros Hdec Hres.
  destruct (Decode_GeoResponse_results body response first others Hdec Hres)
    as (ms & rest & Hs & Hstore).
  unfold Decode_GeoResponse, first_value in *. simpl data.
  rewrite (run_append (data body) _ _ (Object ms) rest tail Hs)
    by (intros lit; discriminate).
  simpl self_delimited. cbv iota. now rewrite Hstore.
Qed.

End Trailing.

(** X12. [getLatLong] reads the first JSON value of the body and nothing
    after it: when it returns a coordinate for a body, it returns the same
    coordinate for that body followed by any text, even if reading the rest
    of the body fails. *)
Theorem getLatLong_ignores_trailing_text
  (W W' : World) (city : string) (body : Body) (first : LatLong)
  (tail : string) (e : option error) :
  http_Get W (geo_endpoint city) = inr body ->
  getLatLong W city = Ok first ->
  http_Get W' (geo_endpoint city) =
    inr {| data := data body ++ tail; read_err := e |} ->
  getLatLong W' city = Ok first.
Proof.
  intros Hget Hok Hget'. unfold getLatLong in *.
  rewrite Hget in Hok. rewrite Hget'.
  destruct (Decode.Decode_GeoResponse body) as [err | response] eqn:Hdec;
    [discriminate |].
  destruct (Results response) as [| r others] eqn:Hres; simpl in Hok;
    [discriminate |].
  inversion Hok; subst r.
  rewrite (Decode_GeoResponse_append body response first others tail e Hdec Hres).
  rewrite Hres. reflexivity.
Qed.

Lemma getLatLong_ignores_trailing_text_witness :
  getLatLong (geo_followed_by "} not JSON at all") "Paris" = Ok paris_latLong.
Proof.
  apply (getLatLong_ignores_trailing_text Sample.world
           (geo_followed_by "} not JSON at all") "Paris"
           (Sample.whole Sample.geo_body) paris_latLong
           "} not JSON at all" None).
  - vm_compute. reflexivity.
  - vm_compute. reflexivity.
  - vm_compute. reflexivity.
Defined.

(** X13. [extractWeatherData] reads the whole payload: a payload that the
    decoder accepts is still accepted, with the same result, when white space
    follows it, and is refused with a syntax error when anything else
    does. *)
Theorem extractWeatherData_trailing_text
  (W : World) (city raw tail : string) (wr : WeatherResponse) :
  Decode.Unmarshal_WeatherResponse raw = inr wr ->
  extractWeatherData W city (raw ++ tail) =
  if Json.is_blank tail then extractWeatherData W city raw
  else Err (fmt_Errorf "error decoding weather response: " (json_err SyntaxError)).
Proof.
  intros Hdec. unfold extractWeatherData.
  rewrite (Unmarshal_WeatherResponse_append raw tail wr Hdec), Hdec.
  destruct (Json.is_blank tail); reflexivity.
Qed.

Lemma extractWeatherData_trailing_text_witness :
  extractWeatherData Sample.world "Paris" (Sample.weather_body ++ "}") =
  Err (fmt_Errorf "error decoding weather response: " (json_err SyntaxError)).
Proof.
  apply (extractWeatherData_trailing_text Sample.world "Paris"
           Sample.weather_body "}"
           {| wr_Latitude := float64_zero; wr_Longitude := float64_zero;
              Timezone := "";
              Hourly := {| Time := [1700000000];
                           Temperature2m :=
                             [S754_finite false 6924284427082138 (-49)] |} |}).
  vm_compute. reflexivity.
Defined.

(* ------------------------------------------------------------------ *)
(** * The shape of the labels *)

Lemma in_below (n : nat) (x : Z) : 0 <= x < Z.of_nat n -> In x (below n).
Proof.
  intros H. unfold below. apply in_map_iff. exists (Z.to_nat x). split.
  - lia.
  - apply in_seq. lia.
Qed.

(** A check on every integer below [n] holds for each of them. *)
Lemma below_forallb (n : nat) (check : Z -> bool) (x : Z) :
  forallb check (below n) = true -> 0 <= x < Z.of_nat n -> check x = true.
Proof.
  intros Hall Hx. apply (proj1 (forallb_forall check (below n)) Hall).
  now apply in_below.
Qed.

Lemma dec_pad_2_length (x : Z) :
  0 <= x < 60 -> String.length (dec_pad 2 x) = 2%nat.
Proof.
  intros Hx. apply Nat.eqb_eq.
  apply (below_forallb 60 (fun y => (String.length (dec_pad 2 y) =? 2)%nat) x).
  - vm_compute. reflexivity.
  - simpl. lia.
Qed.

Lemma shortDayName_length (w : Z) :
  0 <= w < 7 -> String.length (GoTime.shortDayName w) = 3%nat.
Proof.
  intros Hw. apply Nat.eqb_eq.
  apply (below_forallb 7 (fun y => (String.length (GoTime.shortDayName y) =? 3)%nat) w).
  - vm_compute. reflexivity.
  - simpl. lia.
Qed.

Lemma append_length (a b : string) :
  String.length (a ++ b) = (String.length a + String.length b)%nat.
Proof. induction a as [| c a IH]; simpl; [reflexivity | now rewrite IH]. Qed.

(** Whatever the time, [Format] writes a weekday, an hour below 24 and a
    minute below 60. *)
Lemma Format_Mon_15_04_fields (zone : Z -> Z) (t : GoTime.Time) :
  exists w h m,
    GoTime.Format_Mon_15_04 zone t = date_label w h m /\
    0 <= w < 7 /\ 0 <= h < 24 /\ 0 <= m < 60.
Proof.
  unfold GoTime.Format_Mon_15_04, GoTime.absClock, GoTime.absWeekday.
  set (a := GoTime.abs zone t).
  change GoTime.secondsPerDay with 86400. change GoTime.secondsPerHour with 3600.
  change GoTime.secondsPerMinute with 60. change GoTime.secondsPerWeek with 604800.
  set (week := GoTime.wrap_uint64 (a + GoTime.Monday * 86400) mod 604800).
  set (day := a mod 86400).
  assert (Hweek : 0 <= week < 604800) by (apply Z.mod_pos_bound; lia).
  assert (Hday : 0 <= day < 86400) by (apply Z.mod_pos_bound; lia).
  exists (week / 86400), (day / 3600), ((day - day / 3600 * 3600) / 60).
  split; [reflexivity |].
  assert (Hh : 0 <= day / 3600 < 24).
  { split; [apply Z.div_pos; lia | apply Z.div_lt_upper_bound; lia]. }
  assert (Hrem : 0 <= day - day / 3600 * 3600 < 3600).
  { pose proof (Z.mod_pos_bound day 3600 ltac:(lia)) as Hm.
    rewrite Z.mod_eq in Hm by lia. lia. }
  repeat split; try lia.
  - apply Z.div_pos; lia.
  - apply Z.div_lt_upper_bound; lia.
  - apply Z.div_pos; lia.
  - apply Z.div_lt_upper_bound; lia.
Qed.

Lemma date_label_length (w h m : Z) :
  0 <= w < 7 -> 0 <= h < 24 -> 0 <= m < 60 ->
  String.length (date_label w h m) = 9%nat.
Proof.
  intros Hw Hh Hm. unfold date_label.
  repeat rewrite append_length.
  rewrite shortDayName_length by exact Hw.
  rewrite !dec_pad_2_length by lia. reflexivity.
Qed.

(** The decimal digits of a number are digits, and there is one at least. *)
Lemma string_of_uint_digits (u : Decimal.uint) :
  all_bytes is_digit (NilEmpty.string_of_uint u) = true.
Proof. induction u; simpl; auto. Qed.

Lemma dec_digits (n : Z) : dec n <> "" /\ all_bytes is_digit (dec n) = true.
Proof.
  unfold dec. destruct (N.to_uint (Z.to_N n)) as [| u | u | u | u | u | u | u | u | u | u] eqn:Hu;
    simpl; (split; [discriminate |]);
    try reflexivity; apply string_of_uint_digits.
Qed.

Lemma dec_pad_1_digit (x : Z) :
  0 <= x < 10 -> exists d, dec_pad 1 x = String d "" /\ is_digit d = true.
Proof.
  intros Hx.
  pose (check := fun y => match dec_pad 1 y with
                          | String d EmptyString => is_digit d
                          | _ => false
                          end).
  assert (Hcheck : check x = true).
  { apply (below_forallb 10 check); [vm_compute; reflexivity | simpl; lia]. }
  unfold check in Hcheck.
  destruct (dec_pad 1 x) as [| d [| ? ?]]; try discriminate.
  now exists d.
Qed.

(** The text of a number with [%.1f]. *)
Lemma format_f_1_one_decimal (f : float64) :
  ordinary f = true -> one_decimal (format_f 1 f).
Proof.
  intros Hf.
  assert (Hshape : forall (s : bool) (r : Z),
             one_decimal (sign_text s ++ fixed_digits 1 r)).
  { intros s r. unfold fixed_digits.
    change (10 ^ Z.of_nat 1) with 10.
    destruct (dec_pad_1_digit (r mod 10)) as (d & Hd & Hdigit);
      [apply Z.mod_pos_bound; lia |].
    destruct (dec_digits (r / 10)) as [Hne Hall].
    exists (sign_text s), (dec (r / 10)), d. rewrite Hd.
    repeat split; try assumption.
    destruct s; simpl; auto. }
  destruct f as [s | s | | s m e]; try discriminate; simpl; apply Hshape.
Qed.

(* ------------------------------------------------------------------ *)
(** * The temperatures that the decoder stores *)

Section Ordinary.
Import Json Decode.

Lemma ParseFloat_ordinary (lit : string) (f : float64) :
  ParseFloat lit = Some f -> ordinary f = true.
Proof.
  unfold ParseFloat. destruct (read_decimal lit) as [d |]; [| discriminate].
  destruct (float64_of_decimal d); intros H; inversion H; reflexivity.
Qed.

Lemma into_float64_ordinary (v : value) (cur f : float64) :
  ordinary cur = true -> into_float64 v cur = Some f -> ordinary f = true.
Proof.
  intros Hcur. destruct v; simpl; try discriminate.
  - intros H. now inversion H; subst.
  - apply ParseFloat_ordinary.
Qed.

Lemma into_elements_ordinary (els : list value) :
  forall cur l,
    forallb ordinary cur = true ->
    into_elements into_float64 float64_zero els cur = Some l ->
    forallb ordinary l = true.
Proof.
  induction els as [| v els IH]; intros cur l Hcur Hdec; simpl in Hdec.
  - now inversion Hdec.
  - destruct (into_float64 v (hd float64_zero cur)) as [f |] eqn:Hf;
      [| discriminate].
    destruct (into_elements into_float64 float64_zero els (tl cur)) as [l' |] eqn:Hl;
      [| discriminate].
    inversion Hdec; subst. simpl. apply andb_true_iff. split.
    + apply (into_float64_ordinary v (hd float64_zero cur)); [| exact Hf].
      destruct cur as [| c cur']; [reflexivity |].
      simpl in Hcur. now apply andb_true_iff in Hcur.
    + apply (IH (tl cur)); [| exact Hl].
      destruct cur as [| c cur']; [reflexivity |].
      simpl in Hcur. now apply andb_true_iff in Hcur.
Qed.

Lemma Hourly_members_ordinary (ms : list (string * value)) :
  forall cur h,
    forallb ordinary (Temperature2m cur) = true ->
    Hourly_members ms cur = Some h ->
    forallb ordinary (Temperature2m h) = true.
Proof.
  induction ms as [| [key v] ms IH]; intros cur h Hcur Hdec; simpl in Hdec.
  - now inversion Hdec; subst.
  - destruct (key_is "time" key).
    + destruct (into_slice into_int64 0 v (Time cur)); [| discriminate].
      eapply IH; [| exact Hdec]. exact Hcur.
    + destruct (key_is "temperature_2m" key);
        [| eapply IH; [| exact Hdec]; exact Hcur].
      destruct (into_slice into_float64 float64_zero v (Temperature2m cur))
        as [l |] eqn:Hl; [| discriminate].
      eapply IH; [| exact Hdec]. simpl.
      destruct v; simpl in Hl; try discriminate.
      * now inversion Hl.
      * now apply (into_elements_ordinary _ _ _ Hcur Hl).
Qed.

Lemma WeatherResponse_members_ordinary (ms : list (string * value)) :
  forall cur wr,
    forallb ordinary (Temperature2m (Hourly cur)) = true ->
    WeatherResponse_members ms cur = Some wr ->
    forallb ordinary (Temperature2m (Hourly wr)) = true.
Proof.
  induction ms as [| [key v] ms IH]; intros cur wr Hcur Hdec; simpl in Hdec.
  - now inversion Hdec; subst.
  - destruct (key_is "latitude" key).
    { destruct (into_float64 v (wr_Latitude cur)); [| discriminate].
      eapply IH; [| exact Hdec]. exact Hcur. }
    destruct (key_is "longitude" key).
    { destruct (into_float64 v (wr_Longitude cur)); [| discriminate].
      eapply IH; [| exact Hdec]. exact Hcur. }
    destruct (key_is "timezone" key).
    { destruct (into_string v (Timezone cur)); [| discriminate].
      eapply IH; [| exact Hdec]. exact Hcur. }
    destruct (key_is "hourly" key); [| eapply IH; [| exact Hdec]; exact Hcur].
    destruct (into_Hourly v (Hourly cur)) as [hd |] eqn:Hh; [| discriminate].
    eapply IH; [| exact Hdec]. simpl.
    destruct v; simpl in Hh; try discriminate.
    + now inversion Hh; subst.
    + now apply (Hourly_members_ordinary _ _ _ Hcur Hh).
Qed.

(** No temperature of a decoded payload is an infinity or a NaN. *)
Lemma Unmarshal_WeatherResponse_ordinary (raw : string) (wr : WeatherResponse) :
  Unmarshal_WeatherResponse raw = inr wr ->
  forallb ordinary (Temperature2m (Hourly wr)) = true.
Proof.
  unfold Unmarshal_WeatherResponse.
  destruct (first_value raw) as [v rest | |]; try discriminate.
  destruct (is_blank rest); [| discriminate].
  destruct (into_WeatherResponse v zero_WeatherResponse) as [w |] eqn:Hd;
    [| discriminate].
  intros H. inversion H; subst w.
  destruct v; simpl in Hd; try discriminate.
  - now inversion Hd.
  - now apply (WeatherResponse_members_ordinary members zero_WeatherResponse).
Qed.

End Ordinary.

(** X14. Every row that [extractWeatherData] returns is well formed: the
    date label has nine bytes, a weekday out of seven, a space, an hour below
    24 and a minute below 60 on two digits each around a colon, and the
    temperature label is a number with one decimal, never an infinity or a
    NaN, followed by the suffix of the format string. *)
Theorem extractWeatherData_rows_well_formed
  (W : World) (city raw : string) (display : WeatherDisplay) (row : Forecast) :
  extractWeatherData W city raw = Ok display ->
  In row (Forecasts display) ->
  (exists w h m,
     Date row = date_label w h m /\ String.length (Date row) = 9%nat /\
     0 <= w < 7 /\ 0 <= h < 24 /\ 0 <= m < 60) /\
  (exists number,
     Temperature row = number ++ temperature_suffix /\ one_decimal number).
Proof.
  intros Hok Hin. unfold extractWeatherData in Hok.
  destruct (Decode.Unmarshal_WeatherResponse raw) as [cause | wr] eqn:Hdec;
    [discriminate |].
  destruct (Nat.le_gt_cases (List.length (Time (Hourly wr)))
              (List.length (Temperature2m (Hourly wr)))) as [Hl | Hl].
  2:{ rewrite format_series_out_of_bounds in Hok by exact Hl. discriminate. }
  rewrite format_series_in_bounds in Hok by exact Hl.
  inversion Hok; subst display. clear Hok. simpl in Hin.
  apply in_map_iff in Hin. destruct Hin as ([t temp] & Hrow & Hpair).
  subst row. simpl.
  split.
  - destruct (Format_Mon_15_04_fields (zone W) (GoTime.Unix t))
      as (w & h & m & Heq & Hw & Hh & Hm).
    exists w, h, m. rewrite Heq.
    repeat split; try lia. now apply date_label_length.
  - exists (format_f 1 temp). split; [reflexivity |].
    apply format_f_1_one_decimal.
    apply in_combine_r in Hpair.
    apply (proj1 (forallb_forall ordinary (Temperature2m (Hourly wr)))
             (Unmarshal_WeatherResponse_ordinary raw wr Hdec)).
    exact Hpair.
Qed.

Lemma extractWeatherData_rows_well_formed_witness :
  (exists w h m,
     "Tue 22:13" = date_label w h m /\ String.length "Tue 22:13" = 9%nat /\
     0 <= w < 7 /\ 0 <= h < 24 /\ 0 <= m < 60) /\
  (exists number,
     "12.3" ++ bytes [195; 130; 194; 176; 67] = number ++ temperature_suffix /\
     one_decimal number).
Proof.
  apply (extractWeatherData_rows_well_formed Sample.world "Paris"
           Sample.weather_body
           {| City := "Paris";
              Forecasts := [ {| Date := "Tue 22:13";
                                Temperature := "12.3" ++ bytes [195; 130; 194; 176; 67] |} ] |}
           {| Date := "Tue 22:13";
              Temperature := "12.3" ++ bytes [195; 130; 194; 176; 67] |}).
  - vm_compute. reflexivity.
  - left. reflexivity.
Defined.

(* ------------------------------------------------------------------ *)
(** * The date labels and the calendar *)

(** X15. When the payload decodes, has a temperature for each timestamp and
    every timestamp, moved by the offset of the local zone, lies in the range
    that [Time] holds without wrapping, each date label of
    [extractWeatherData] is the calendar reading of the local time: the
    weekday counted from the Thursday of 1 January 1970, the hour and the
    minute of the day. *)
Theorem extractWeatherData_calendar_labels
  (W : World) (city raw : string) (wr : WeatherResponse) :
  Decode.Unmarshal_WeatherResponse raw = inr wr ->
  (List.length (Time (Hourly wr)) <= List.length (Temperature2m (Hourly wr)))%nat ->
  Forall (in_calendar (zone W)) (Time (Hourly wr)) ->
  extractWeatherData W city raw =
  Ok {| City := city;
        Forecasts := map (fun p => calendar_forecast W (fst p) (snd p))
                         (combine (Time (Hourly wr)) (Temperature2m (Hourly wr))) |}.
Proof.
  intros Hdec Hlen Hcal. unfold extractWeatherData. rewrite Hdec.
  rewrite format_series_in_bounds by exact Hlen.
  do 2 f_equal. apply map_ext_in. intros [t temp] Hin.
  unfold forecast_of, calendar_forecast. simpl. f_equal.
  apply in_combine_l in Hin.
  destruct (proj1 (Forall_forall _ _) Hcal t Hin) as [Hs Hl].
  now apply Format_Mon_15_04_calendar.
Qed.

Lemma extractWeatherData_calendar_labels_witness :
  extractWeatherData Sample.world "Paris"
    (with_quotes "{'hourly':{'time':[1700000000],'temperature_2m':[12.3]}}")
  = Ok {| City := "Paris";
          Forecasts := [ {| Date := "Tue 22:13";
                            Temperature := "12.3" ++ temperature_suffix |} ] |}.
Proof.
  apply (extractWeatherData_calendar_labels Sample.world "Paris"
           (with_quotes "{'hourly':{'time':[1700000000],'temperature_2m':[12.3]}}")
           {| wr_Latitude := float64_zero; wr_Longitude := float64_zero;
              Timezone := "";
              Hourly := {| Time := [1700000000];
                           Temperature2m :=
                             [S754_finite false 6924284427082138 (-49)] |} |}).
  - vm_compute. reflexivity.
  - simpl. lia.
  - constructor; [| constructor].
    split; vm_compute; split; discriminate.
Defined.

(** X16. The date label has no date in it: two timestamps a week apart, in
    range and under the same zone offset, get the same label, whatever their
    temperatures. *)
Theorem forecast_of_week_later (W : World) (t : Z) (temp temp' : float64) :
  in_calendar (zone W) t ->
  in_calendar (zone W) (t + 604800) ->
  zone W (t + 604800) = zone W t ->
  Date (forecast_of W (t + 604800) temp') = Date (forecast_of W t temp).
Proof.
  intros [Hs Hl] [Hs' Hl'] Hz. unfold forecast_of. simpl.
  rewrite !Format_Mon_15_04_calendar by assumption.
  unfold GoTime.local_label, GoTime.local_weekday, GoTime.local_hour,
    GoTime.local_minute.
  rewrite Hz.
  replace (t + 604800 + zone W t) with (t + zone W t + 7 * 86400) by lia.
  set (l := t + zone W t).
  replace ((l + 7 * 86400) / 86400) with (l / 86400 + 7)
    by (rewrite Z.div_add by lia; reflexivity).
  replace ((l / 86400 + 7 + 4) mod 7) with ((l / 86400 + 4) mod 7)
    by (replace (l / 86400 + 7 + 4) with (l / 86400 + 4 + 1 * 7) by lia;
        now rewrite Z.mod_add by lia).
  replace ((l + 7 * 86400) mod 86400) with (l mod 86400)
    by (now rewrite Z.mod_add by lia).
  replace ((l + 7 * 86400) mod 3600) with (l mod 3600)
    by (replace (7 * 86400) with (168 * 3600) by lia;
        now rewrite Z.mod_add by lia).
  reflexivity.
Qed.

Lemma forecast_of_week_later_witness :
  Date (forecast_of Sample.world (1700000000 + 604800) float64_zero) =
  Date (forecast_of Sample.world 1700000000 float64_zero).
Proof.
  apply (forecast_of_week_later Sample.world 1700000000 float64_zero float64_zero).
  - split; vm_compute; split; discriminate.
  - split; vm_compute; split; discriminate.
  - reflexivity.
Defined.

(* ------------------------------------------------------------------ *)
(** * The two endpoints *)

Lemma all_bytes_append (ok : ascii -> bool) (a b : string) :
  all_bytes ok (a ++ b) = all_bytes ok a && all_bytes ok b.
Proof.
  induction a as [| c a IH]; simpl; [reflexivity |].
  now rewrite IH, andb_assoc.
Qed.

Lemma all_bytes_impl (ok ok' : ascii -> bool) (s : string) :
  (forall c, ok c = true -> ok' c = true) ->
  all_bytes ok s = true -> all_bytes ok' s = true.
Proof.
  intros Himp. induction s as [| c s IH]; simpl; [reflexivity |].
  intros H. apply andb_true_iff in H. destruct H as [Hc Hs].
  apply andb_true_iff. split; [now apply Himp | now apply IH].
Qed.

Lemma count_byte_append (c : ascii) (a b : string) :
  count_byte c (a ++ b) = (count_byte c a + count_byte c b)%nat.
Proof.
  induction a as [| x a IH]; simpl; [reflexivity |]. rewrite IH. lia.
Qed.

(** A byte outside an alphabet does not occur in a text over it. *)
Lemma count_byte_outside (ok : ascii -> bool) (c : ascii) (s : string) :
  ok c = false -> all_bytes ok s = true -> count_byte c s = 0%nat.
Proof.
  intros Hc. induction s as [| x s IH]; simpl; [reflexivity |].
  intros H. apply andb_true_iff in H. destruct H as [Hx Hs].
  rewrite (IH Hs). destruct (Ascii.eqb_spec x c) as [-> |]; [congruence | reflexivity].
Qed.

Lemma code_bounds (c : ascii) : 0 <= code c < 256.
Proof.
  unfold code. pose proof (N_ascii_bounded c) as H. lia.
Qed.

Lemma code_inj (a b : ascii) : code a = code b -> a = b.
Proof.
  unfold code. intros H. apply N2Z.inj in H.
  rewrite <- (ascii_N_embedding a), <- (ascii_N_embedding b). now rewrite H.
Qed.

Lemma hex_digit_safe (n : Z) : 0 <= n < 16 -> query_safe (hex_digit n) = true.
Proof.
  intros Hn. apply (below_forallb 16 (fun y => query_safe (hex_digit y))).
  - vm_compute. reflexivity.
  - simpl. lia.
Qed.

Lemma hex_val_hex_digit (n : Z) : 0 <= n < 16 -> hex_val (hex_digit n) = Some n.
Proof.
  intros Hn.
  pose (check := fun y => match hex_val (hex_digit y) with
                          | Some v => v =? y
                          | None => false
                          end).
  assert (Hcheck : check n = true).
  { apply (below_forallb 16 check); [vm_compute; reflexivity | simpl; lia]. }
  unfold check in Hcheck.
  destruct (hex_val (hex_digit n)) as [v |]; [| discriminate].
  apply Z.eqb_eq in Hcheck. now subst.
Qed.

Lemma code_high (c : ascii) : 0 <= code c / 16 < 16.
Proof.
  pose proof (code_bounds c).
  split; [apply Z.div_pos; lia | apply Z.div_lt_upper_bound; lia].
Qed.

Lemma code_low (c : ascii) : 0 <= code c mod 16 < 16.
Proof. apply Z.mod_pos_bound. lia. Qed.

Lemma shouldEscape_safe (c : ascii) :
  Url.shouldEscape c = false -> query_safe c = true.
Proof.
  unfold Url.shouldEscape, query_safe.
  destruct (is_lower c || is_upper c || is_digit c); [reflexivity |].
  simpl.
  destruct ((c =? "-")%char || (c =? "_")%char || (c =? ".")%char || (c =? "~")%char);
    [reflexivity | discriminate].
Qed.

(** [QueryEscape] writes unreserved bytes, [+] and [%] only. *)
Lemma QueryEscape_safe (s : string) :
  all_bytes query_safe (Url.QueryEscape s) = true.
Proof.
  induction s as [| c s IH]; simpl; [reflexivity |].
  destruct (Url.shouldEscape c) eqn:He.
  - destruct (c =? " ")%char; simpl.
    + exact IH.
    + rewrite (hex_digit_safe _ (code_high c)), (hex_digit_safe _ (code_low c)).
      exact IH.
  - simpl. now rewrite (shouldEscape_safe c He).
Qed.

(** X17. Whatever the city name, the geocoding URL has the one query that
    the format string gives it: one [?], three [&], four [=], and no [#], no
    space, no slash after the path and no control byte; a name cannot add a
    parameter, cut the query short or change the path. *)
Theorem geo_endpoint_parameters (city : string) :
  count_byte "?" (geo_endpoint city) = 1%nat /\
  count_byte "&" (geo_endpoint city) = 3%nat /\
  count_byte "=" (geo_endpoint city) = 4%nat /\
  count_byte "#" (geo_endpoint city) = 0%nat /\
  count_byte " " (geo_endpoint city) = 0%nat /\
  count_byte "/" (geo_endpoint city) = 4%nat /\
  count_byte (byte 10) (geo_endpoint city) = 0%nat /\
  count_byte (byte 13) (geo_endpoint city) = 0%nat.
Proof.
  unfold geo_endpoint.
  repeat split; rewrite !count_byte_append;
    match goal with
    | |- context [count_byte ?c (Url.QueryEscape city)] =>
        rewrite (count_byte_outside query_safe c _ eq_refl (QueryEscape_safe city))
    end;
    reflexivity.
Qed.

(** ** Different names, different requests *)

Lemma shouldEscape_plus_percent (c : ascii) :
  Url.shouldEscape c = false -> c <> "+"%char /\ c <> "%"%char.
Proof.
  intros H. split; intros ->; discriminate.
Qed.

Lemma QueryEscape_empty (s : string) : Url.QueryEscape s = "" -> s = "".
Proof.
  destruct s as [| c s]; [reflexivity |]. simpl.
  destruct (Url.shouldEscape c); [destruct (c =? " ")%char |]; discriminate.
Qed.

Lemma hex_digits_inj (a b : ascii) :
  hex_digit (code a / 16) = hex_digit (code b / 16) ->
  hex_digit (code a mod 16) = hex_digit (code b mod 16) ->
  a = b.
Proof.
  intros Hh Hl. apply code_inj.
  assert (Hh' : code a / 16 = code b / 16).
  { apply (f_equal hex_val) in Hh.
    rewrite !hex_val_hex_digit in Hh by apply code_high. congruence. }
  assert (Hl' : code a mod 16 = code b mod 16).
  { apply (f_equal hex_val) in Hl.
    rewrite !hex_val_hex_digit in Hl by apply code_low. congruence. }
  rewrite (Z.div_mod (code a) 16), (Z.div_mod (code b) 16) by lia.
  now rewrite Hh', Hl'.
Qed.

Lemma QueryEscape_inj (a : string) :
  forall b, Url.QueryEscape a = Url.QueryEscape b -> a = b.
Proof.
  induction a as [| x a IH]; intros b H.
  - symmetry. apply QueryEscape_empty. now rewrite <- H.
  - destruct b as [| y b]; [now apply QueryEscape_empty in H |].
    simpl in H.
    destruct (Url.shouldEscape x) eqn:Hx, (Url.shouldEscape y) eqn:Hy.
    + destruct (Ascii.eqb_spec x " ") as [-> | Hxs],
               (Ascii.eqb_spec y " ") as [-> | Hys].
      * inversion H. f_equal. now apply IH.
      * discriminate.
      * discriminate.
      * inversion H as [[Hh Hl Hrest]].
        rewrite (hex_digits_inj x y Hh Hl). f_equal. now apply IH.
    + destruct (shouldEscape_plus_percent y Hy) as [Hplus Hpct].
      destruct (x =? " ")%char; inversion H; congruence.
    + destruct (shouldEscape_plus_percent x Hx) as [Hplus Hpct].
      destruct (y =? " ")%char; inversion H; congruence.
    + inversion H. f_equal. now apply IH.
Qed.

Lemma append_inj_l (s : string) : forall a b, a ++ s = b ++ s -> a = b.
Proof.
  intros a. induction a as [| x a IH]; intros b H.
  - destruct b as [| y b]; [reflexivity |].
    apply (f_equal String.length) in H. simpl in H.
    rewrite append_length in H. lia.
  - destruct b as [| y b].
    + apply (f_equal String.length) in H. simpl in H.
      rewrite append_length in H. lia.
    + simpl in H. inversion H. f_equal. now apply IH.
Qed.

(** X18. Two city names that differ are never sent to the geocoding service
    as the same URL: the escaping of the name loses nothing. *)
Theorem geo_endpoint_injective (city city' : string) :
  geo_endpoint city = geo_endpoint city' -> city = city'.
Proof.
  unfold geo_endpoint. intros H.
  apply QueryEscape_inj.
  apply (append_inj_l "&count=1&language=ru&format=json").
  cbn [append] in H. now inversion H.
Qed.

Lemma geo_endpoint_injective_witness : "New York" = "New York".
Proof.
  apply (geo_endpoint_injective "New York" "New York"). reflexivity.
Defined.

(** ** The coordinates in the weather URL *)

Section Coordinates.
Import Json Decode.

Lemma LatLong_members_ordinary (ms : list (string * value)) :
  forall cur l,
    ordinary_LatLong cur = true ->
    LatLong_members ms cur = Some l -> ordinary_LatLong l = true.
Proof.
  unfold ordinary_LatLong.
  induction ms as [| [key v] ms IH]; intros cur l Hcur Hdec; simpl in Hdec.
  - now inversion Hdec; subst.
  - apply andb_true_iff in Hcur. destruct Hcur as [Hlat Hlon].
    destruct (key_is "latitude" key).
    { destruct (into_float64 v (Latitude cur)) as [x |] eqn:Hx; [| discriminate].
      eapply IH; [| exact Hdec]. simpl.
      now rewrite (into_float64_ordinary _ _ _ Hlat Hx), Hlon. }
    destruct (key_is "longitude" key).
    { destruct (into_float64 v (Longitude cur)) as [x |] eqn:Hx; [| discriminate].
      eapply IH; [| exact Hdec]. simpl.
      now rewrite (into_float64_ordinary _ _ _ Hlon Hx), Hlat. }
    eapply IH; [| exact Hdec]. now rewrite Hlat, Hlon.
Qed.

Lemma into_LatLong_ordinary (v : value) (cur l : LatLong) :
  ordinary_LatLong cur = true ->
  into_LatLong v cur = Some l -> ordinary_LatLong l = true.
Proof.
  intros Hcur. destruct v; simpl; try discriminate.
  - intros H. now inversion H; subst.
  - now apply LatLong_members_ordinary.
Qed.

Lemma into_elements_LatLong_ordinary (els : list value) :
  forall cur l,
    forallb ordinary_LatLong cur = true ->
    into_elements into_LatLong zero_LatLong els cur = Some l ->
    forallb ordinary_LatLong l = true.
Proof.
  induction els as [| v els IH]; intros cur l Hcur Hdec; simpl in Hdec.
  - now inversion Hdec.
  - destruct (into_LatLong v (hd zero_LatLong cur)) as [x |] eqn:Hx;
      [| discriminate].
    destruct (into_elements into_LatLong zero_LatLong els (tl cur)) as [l' |] eqn:Hl;
      [| discriminate].
    inversion Hdec; subst. simpl. apply andb_true_iff. split.
    + apply (into_LatLong_ordinary v (hd zero_LatLong cur)); [| exact Hx].
      destruct cur as [| c cur']; [reflexivity |].
      simpl in Hcur. now apply andb_true_iff in Hcur.
    + apply (IH (tl cur)); [| exact Hl].
      destruct cur as [| c cur']; [reflexivity |].
      simpl in Hcur. now apply andb_true_iff in Hcur.
Qed.

Lemma GeoResponse_members_ordinary (ms : list (string * value)) :
  forall cur g,
    forallb ordinary_LatLong (Results cur) = true ->
    GeoResponse_members ms cur = Some g ->
    forallb ordinary_LatLong (Results g) = true.
Proof.
  induction ms as [| [key v] ms IH]; intros cur g Hcur Hdec; simpl in Hdec.
  - now inversion Hdec; subst.
  - destruct (key_is "results" key); [| eapply IH; [| exact Hdec]; exact Hcur].
    destruct (into_slice into_LatLong zero_LatLong v (Results cur)) as [l |] eqn:Hl;
      [| discriminate].
    eapply IH; [| exact Hdec]. simpl.
    destruct v; simpl in Hl; try discriminate.
    + now inversion Hl.
    + now apply (into_elements_LatLong_ordinary _ _ _ Hcur Hl).
Qed.

(** No coordinate of a decoded geocoding answer is an infinity or a NaN. *)
Lemma Decode_GeoResponse_ordinary (body : Body) (response : GeoResponse) :
  Decode_GeoResponse body = inr response ->
  forallb ordinary_LatLong (Results response) = true.
Proof.
  intros Hdec.
  destruct (Results response) as [| first others] eqn:Hres; [reflexivity |].
  destruct (Decode_GeoResponse_results body response first others Hdec Hres)
    as (ms & rest & _ & Hstore).
  rewrite <- Hres. simpl in Hstore.
  now apply (GeoResponse_members_ordinary ms zero_GeoResponse).
Qed.

End Coordinates.

Lemma getLatLong_ordinary (W : World) (city : string) (latLong : LatLong) :
  getLatLong W city = Ok latLong -> ordinary_LatLong latLong = true.
Proof.
  unfold getLatLong.
  destruct (http_Get W (geo_endpoint city)) as [err | resp]; [discriminate |].
  destruct (Decode.Decode_GeoResponse resp) as [err | response] eqn:Hdec;
    [discriminate |].
  destruct (List.length (Results response) <? 1)%nat; [discriminate |].
  pose proof (Decode_GeoResponse_ordinary resp response Hdec) as Hall.
  destruct (Results response) as [| first others]; simpl; [discriminate |].
  intros H. inversion H; subst. simpl in Hall.
  now apply andb_true_iff in Hall.
Qed.

Lemma repeat_byte_all (ok : ascii -> bool) (c : ascii) (n : nat) :
  ok c = true -> all_bytes ok (repeat_byte c n) = true.
Proof. intros H. induction n; simpl; [reflexivity | now rewrite H]. Qed.

(** The text of a number with [%.6f] is in plain decimal notation. *)
Lemma format_f_6_number (f : float64) :
  ordinary f = true -> all_bytes number_byte (format_f 6 f) = true.
Proof.
  intros Hf.
  assert (Hdigit : forall c, is_digit c = true -> number_byte c = true).
  { intros c H. unfold number_byte. now rewrite H. }
  assert (Hdec : forall n, all_bytes number_byte (dec n) = true).
  { intros n. apply (all_bytes_impl is_digit); [exact Hdigit |].
    apply dec_digits. }
  assert (Hshape : forall (s : bool) (r : Z),
             all_bytes number_byte (sign_text s ++ fixed_digits 6 r) = true).
  { intros s r. unfold fixed_digits, dec_pad.
    rewrite !all_bytes_append, !Hdec.
    rewrite repeat_byte_all by reflexivity.
    destruct s; reflexivity. }
  destruct f as [s | s | | s m e]; try discriminate; simpl format_f; apply Hshape.
Qed.

(** X19. A coordinate that [getLatLong] returns is made of two numbers,
    never an infinity or a NaN, and the URL that [getWeather] builds from it
    holds them in plain decimal notation: digits, a minus sign and a point
    only, so that it has one [?], three [&] and four [=], no [+] and no
    space. *)
Theorem getWeather_endpoint_of_getLatLong
  (W : World) (city : string) (latLong : LatLong) :
  getLatLong W city = Ok latLong ->
  ordinary (Latitude latLong) = true /\
  ordinary (Longitude latLong) = true /\
  all_bytes number_byte (format_f 6 (Latitude latLong)) = true /\
  all_bytes number_byte (format_f 6 (Longitude latLong)) = true /\
  count_byte "?" (weather_endpoint latLong) = 1%nat /\
  count_byte "&" (weather_endpoint latLong) = 3%nat /\
  count_byte "=" (weather_endpoint latLong) = 4%nat /\
  count_byte "+" (weather_endpoint latLong) = 0%nat /\
  count_byte " " (weather_endpoint latLong) = 0%nat.
Proof.
  intros Hok. apply getLatLong_ordinary in Hok.
  apply andb_true_iff in Hok. destruct Hok as [Hlat Hlon].
  pose proof (format_f_6_number _ Hlat) as Ha.
  pose proof (format_f_6_number _ Hlon) as Ho.
  repeat split; try assumption;
    unfold weather_endpoint; rewrite !count_byte_append;
    match goal with
    | |- context [count_byte ?c (format_f 6 (Latitude latLong))] =>
        rewrite (count_byte_outside number_byte c _ eq_refl Ha),
                (count_byte_outside number_byte c _ eq_refl Ho)
    end;
    reflexivity.
Qed.

Lemma getWeather_endpoint_of_getLatLong_witness :
  ordinary (Latitude paris_latLong) = true /\
  count_byte "&" (weather_endpoint paris_latLong) = 3%nat.
Proof.
  destruct (getWeather_endpoint_of_getLatLong Sample.world "Paris" paris_latLong)
    as (Hlat & _ & _ & _ & _ & Hamp & _).
  - vm_compute. reflexivity.
  - split; [exact Hlat | exact Hamp].
Defined.
